(** * QUIC-LB-SHRIMP: header parser and load-balancer life cycle

    A shallow embedding of the Go packages [packet] (types and
    [PacketProcessor]) and [lb] ([LoadBalancer]).  Go values are modelled as
    the code has them: [uint8]/[uint32] as [Z] with the wrap-around of every
    addition written out, a slice as the elements below its length together
    with the spare part of its backing array up to its capacity, a pointer as
    an [option], and a call that can hit a run-time panic in a small result
    monad. *)

From Stdlib Require Import ZArith String.
From stdpp Require Import base tactics option list.

Local Open Scope Z_scope.

(** ** The Go run time *)

Module Go.

(** What stops a goroutine instead of a normal return. *)
Inductive panic : Set :=
| IndexOutOfRange        (* s[i] with i outside [0, len s) *)
| SliceBoundsOutOfRange  (* s[lo:hi] without 0 <= lo <= hi <= cap s *)
| NilDereference         (* field or method reached through a nil pointer *)
| AssertionFailed        (* panic("assertion failed") *)
| UnlockOfUnlocked.      (* sync: Unlock of unlocked RWMutex *)

(** A call either returns its results or panics. *)
Inductive run (A : Type) : Type :=
| Ret (a : A)
| Panic (why : panic).
Arguments Ret {A} a.
Arguments Panic {A} why.

Definition bind {A B} (c : run A) (k : A -> run B) : run B :=
  match c with
  | Ret a => k a
  | Panic why => Panic why
  end.

Definition panics {A} (c : run A) : Prop := exists why, c = Panic why.

(** Go's [error] interface: [None] is the nil error. *)
Definition error : Type := option string.

(** A pointer is nil or points at a value. *)
Definition ptr (A : Type) : Type := option A.

Definition deref {A} (p : ptr A) : run A :=
  match p with
  | Some a => Ret a
  | None => Panic NilDereference
  end.

(** *** Fixed-width unsigned integers *)

Definition uint8 : Type := Z.
Definition uint32 : Type := Z.

Definition is_uint8 (z : Z) : Prop := 0 <= z < 256.
#[export] Instance is_uint8_dec z : Decision (is_uint8 z).
Proof. unfold is_uint8. apply _. Defined.

Definition wrap8 (z : Z) : uint8 := z mod 256.
Definition wrap32 (z : Z) : uint32 := z mod 2 ^ 32.

(** [a + b] on [uint8] operands. *)
Definition add8 (a b : uint8) : uint8 := wrap8 (a + b).

(** *** Slices

    A slice is a window on a backing array: [elems] are the [len] elements
    it shows, [spare] the rest of the array up to the capacity.  Indexing
    is checked against the length, re-slicing against the capacity. *)

Record slice : Type := mkslice { elems : list Z; spare : list Z }.

Definition nil_slice : slice := mkslice [] [].

Definition len (s : slice) : Z := Z.of_nat (length (elems s)).
Definition cap (s : slice) : Z := Z.of_nat (length (elems s ++ spare s)).

(** [s[i]] *)
Definition index (s : slice) (i : Z) : run Z :=
  if bool_decide (0 <= i < len s) then
    match elems s !! Z.to_nat i with
    | Some b => Ret b
    | None => Panic IndexOutOfRange
    end
  else Panic IndexOutOfRange.

(** [s[lo:hi]] *)
Definition reslice (s : slice) (lo hi : Z) : run slice :=
  if bool_decide (0 <= lo <= hi /\ hi <= cap s) then
    let backing := elems s ++ spare s in
    Ret (mkslice (take (Z.to_nat (hi - lo)) (drop (Z.to_nat lo) backing))
                 (drop (Z.to_nat hi) backing))
  else Panic SliceBoundsOutOfRange.

(** [encoding/binary]'s [BigEndian.Uint32]: it touches [b[3]] first and
    then assembles the four bytes, most significant first. *)
Definition BigEndian_Uint32 (b : slice) : run uint32 :=
  bind (index b 3) (fun _ =>
  bind (index b 3) (fun b3 =>
  bind (index b 2) (fun b2 =>
  bind (index b 1) (fun b1 =>
  bind (index b 0) (fun b0 =>
  Ret (Z.lor (Z.lor (Z.lor (wrap32 b3) (wrap32 (Z.shiftl (wrap32 b2) 8)))
                    (wrap32 (Z.shiftl (wrap32 b1) 16)))
             (wrap32 (Z.shiftl (wrap32 b0) 24)))))))).

End Go.

Import Go.

#[export] Instance run_ret : MRet run := @Ret.
#[export] Instance run_bind : MBind run := fun A B k c => Go.bind c k.

(** ** Package packet: header types *)

Module packet.

Definition PacketType : Type := uint8.

Definition Initial   : PacketType := 0x00.
Definition ZeroRTT   : PacketType := 0x01.
Definition HandShake : PacketType := 0x02.
Definition Retry     : PacketType := 0x03.
Definition OneRTT    : PacketType := 0x04.

Module LongHeader.
Record t : Type := mk {
  HeaderForm     : uint8;
  LongPacketType : PacketType;
  TypeSpecific   : uint8;
  Version        : uint32;
  DCIDLength     : uint8;
  DCID           : slice;
  SCIDLength     : uint8;
  SCID           : slice
}.
(** [LongHeader{}] *)
Definition zero : t := mk 0 0 0 0 0 nil_slice 0 nil_slice.
Definition set_HeaderForm (v : uint8) (h : t) : t :=
  mk v (LongPacketType h) (TypeSpecific h) (Version h) (DCIDLength h) (DCID h) (SCIDLength h) (SCID h).
Definition set_LongPacketType (v : PacketType) (h : t) : t :=
  mk (HeaderForm h) v (TypeSpecific h) (Version h) (DCIDLength h) (DCID h) (SCIDLength h) (SCID h).
Definition set_TypeSpecific (v : uint8) (h : t) : t :=
  mk (HeaderForm h) (LongPacketType h) v (Version h) (DCIDLength h) (DCID h) (SCIDLength h) (SCID h).
Definition set_Version (v : uint32) (h : t) : t :=
  mk (HeaderForm h) (LongPacketType h) (TypeSpecific h) v (DCIDLength h) (DCID h) (SCIDLength h) (SCID h).
Definition set_DCIDLength (v : uint8) (h : t) : t :=
  mk (HeaderForm h) (LongPacketType h) (TypeSpecific h) (Version h) v (DCID h) (SCIDLength h) (SCID h).
Definition set_DCID (v : slice) (h : t) : t :=
  mk (HeaderForm h) (LongPacketType h) (TypeSpecific h) (Version h) (DCIDLength h) v (SCIDLength h) (SCID h).
Definition set_SCIDLength (v : uint8) (h : t) : t :=
  mk (HeaderForm h) (LongPacketType h) (TypeSpecific h) (Version h) (DCIDLength h) (DCID h) v (SCID h).
Definition set_SCID (v : slice) (h : t) : t :=
  mk (HeaderForm h) (LongPacketType h) (TypeSpecific h) (Version h) (DCIDLength h) (DCID h) (SCIDLength h) v.
End LongHeader.

Module ShortHeader.
Record t : Type := mk {
  HeaderForm         : uint8;
  ReservedBits       : uint8;
  KeyPhase           : uint8;
  PacketNumberLength : uint8;
  DCID               : slice;
  PacketNumber       : Z
}.
(** [ShortHeader{}] *)
Definition zero : t := mk 0 0 0 0 nil_slice 0.
Definition set_HeaderForm (v : uint8) (h : t) : t :=
  mk v (ReservedBits h) (KeyPhase h) (PacketNumberLength h) (DCID h) (PacketNumber h).
Definition set_ReservedBits (v : uint8) (h : t) : t :=
  mk (HeaderForm h) v (KeyPhase h) (PacketNumberLength h) (DCID h) (PacketNumber h).
Definition set_KeyPhase (v : uint8) (h : t) : t :=
  mk (HeaderForm h) (ReservedBits h) v (PacketNumberLength h) (DCID h) (PacketNumber h).
Definition set_PacketNumberLength (v : uint8) (h : t) : t :=
  mk (HeaderForm h) (ReservedBits h) (KeyPhase h) v (DCID h) (PacketNumber h).
Definition set_DCID (v : slice) (h : t) : t :=
  mk (HeaderForm h) (ReservedBits h) (KeyPhase h) (PacketNumberLength h) v (PacketNumber h).
End ShortHeader.

(** The [QuicHeader] interface: three accessors, each with an error
    result.  The receivers are pointers, so the carrier of an instance is a
    pointer type. *)
Class QuicHeader (T : Type) : Type := {
  GetCID        : T -> run (slice * error);
  GetPacketType : T -> run (PacketType * error);
  GetHeaderForm : T -> run (uint8 * error)
}.

#[export] Instance LongHeader_QuicHeader : QuicHeader (ptr LongHeader.t) := {
  GetCID lh := h ← deref lh; Ret (LongHeader.DCID h, None);
  GetPacketType lh := h ← deref lh; Ret (LongHeader.LongPacketType h, None);
  GetHeaderForm lh := h ← deref lh; Ret (LongHeader.HeaderForm h, None)
}.

#[export] Instance ShortHeader_QuicHeader : QuicHeader (ptr ShortHeader.t) := {
  GetCID sh := h ← deref sh; Ret (ShortHeader.DCID h, None);
  GetPacketType sh := Ret (OneRTT, None);
  GetHeaderForm sh := h ← deref sh; Ret (ShortHeader.HeaderForm h, None)
}.

(** A value of interface type [QuicHeader]: the nil interface or one of the
    two implementing pointer types with its pointer. *)
Inductive QuicHeaderValue : Type :=
| NilHeader
| OfLong (lh : ptr LongHeader.t)
| OfShort (sh : ptr ShortHeader.t).

#[export] Instance QuicHeaderValue_QuicHeader : QuicHeader QuicHeaderValue := {
  GetCID v :=
    match v with
    | NilHeader => Panic NilDereference
    | OfLong lh => GetCID lh
    | OfShort sh => GetCID sh
    end;
  GetPacketType v :=
    match v with
    | NilHeader => Panic NilDereference
    | OfLong lh => GetPacketType lh
    | OfShort sh => GetPacketType sh
    end;
  GetHeaderForm v :=
    match v with
    | NilHeader => Panic NilDereference
    | OfLong lh => GetHeaderForm lh
    | OfShort sh => GetHeaderForm sh
    end
}.

(** The interface [HeaderParser] as its method table. *)
Module HeaderParser.
Record t : Type := mk {
  ParsePacket    : slice -> run (ptr QuicHeaderValue * error);
  ClassifyPacket : slice -> run (PacketType * error);
  ExtractCID     : slice -> run (slice * error)
}.
End HeaderParser.

(** ** Package packet: the packet processor *)

Module PacketProcessor.
Record t : Type := mk { DCIDLength : uint8 }.
End PacketProcessor.

Definition assert (condition : bool) : run unit :=
  if condition then Ret tt else Panic AssertionFailed.

Definition parseLongHeader (p : PacketProcessor.t) (packet : slice)
  : run (ptr LongHeader.t * error) :=
  let header := LongHeader.zero in
  let header := LongHeader.set_HeaderForm 1 header in
  b0 ← index packet 0;
  let header := LongHeader.set_LongPacketType (Z.land (Z.shiftr b0 4) 0x1) header in
  b0 ← index packet 0;
  let header := LongHeader.set_TypeSpecific (Z.land b0 0x0F) header in
  vb ← reslice packet 1 5;
  v ← BigEndian_Uint32 vb;
  let header := LongHeader.set_Version v header in
  b5 ← index packet 5;
  let header := LongHeader.set_DCIDLength b5 header in
  dcid ← reslice packet 6 (add8 6 (LongHeader.DCIDLength header));
  let header := LongHeader.set_DCID dcid header in
  sl ← index packet (add8 6 (LongHeader.DCIDLength header));
  let header := LongHeader.set_SCIDLength sl header in
  scid ← reslice packet
            (add8 (add8 6 (LongHeader.DCIDLength header)) 1)
            (add8 (add8 (add8 6 (LongHeader.DCIDLength header)) 1)
                  (LongHeader.SCIDLength header));
  let header := LongHeader.set_SCID scid header in
  Ret (Some header, None).

Definition parseShortHeader (p : PacketProcessor.t) (packet : slice)
  : run (ptr ShortHeader.t * error) :=
  let header := ShortHeader.zero in
  let header := ShortHeader.set_HeaderForm 0 header in
  b0 ← index packet 0;
  let header := ShortHeader.set_ReservedBits (Z.land (Z.shiftr b0 3) 0x3) header in
  b0 ← index packet 0;
  let header := ShortHeader.set_KeyPhase (Z.land (Z.shiftr b0 2) 0x1) header in
  b0 ← index packet 0;
  let header := ShortHeader.set_PacketNumberLength (Z.land b0 0x3) header in
  dcid ← reslice packet 1 (add8 1 (PacketProcessor.DCIDLength p));
  let header := ShortHeader.set_DCID dcid header in
  Ret (Some header, None).

(** The conversions of [return p.parseLongHeader(packet)] and
    [return p.parseShortHeader(packet)] to the interface result. *)
Definition as_long (r : ptr LongHeader.t * error) : QuicHeaderValue * error :=
  (OfLong (fst r), snd r).
Definition as_short (r : ptr ShortHeader.t * error) : QuicHeaderValue * error :=
  (OfShort (fst r), snd r).

Definition ParsePacket (p : PacketProcessor.t) (packet : slice)
  : run (QuicHeaderValue * error) :=
  firstByte ← index packet 0;
  let headerForm := Z.shiftr firstByte 7 in
  _ ← assert (bool_decide (Z.land headerForm 0x1 = 1)
              || bool_decide (Z.land headerForm 0x1 = 0));
  if bool_decide (headerForm = 1) then
    r ← parseLongHeader p packet; Ret (as_long r)
  else
    r ← parseShortHeader p packet; Ret (as_short r).

End packet.

(** ** Package lb: the load balancer *)

Module lb.

(** [sync.RWMutex], as far as [Lock] and [Unlock] see it. *)
Module RWMutex.
Record t : Type := mk { writer : bool; readers : nat }.
Definition zero : t := mk false 0.
Definition held (m : t) : bool := writer m || negb (Nat.eqb (readers m) 0).
(** [Lock] goes through when nobody holds the mutex; otherwise the
    caller waits ([None]). *)
Definition Lock (m : t) : option t :=
  if held m then None else Some (mk true (readers m)).
Definition Unlock (m : t) : run t :=
  if writer m then Ret (mk false (readers m)) else Panic UnlockOfUnlocked.
End RWMutex.

Section LoadBalancer.

(** The network is outside the program: connections, the state of the
    operating system, and the two calls the balancer makes. *)
Variable PacketConn : Type.
Variable world : Type.
Variable ListenPacket :
  string -> string -> world -> (option PacketConn * error) * world.
Variable Close : PacketConn -> world -> error * world.

Record LoadBalancer : Type := mkLoadBalancer {
  listenAddr      : string;
  backends        : list string;
  listener        : option PacketConn;
  mu              : RWMutex.t;
  running         : bool;
  (** a pointer to an interface value, itself nil or a method table *)
  packetProcessor : ptr (option packet.HeaderParser.t)
}.

Definition set_listener (v : option PacketConn) (b : LoadBalancer) : LoadBalancer :=
  mkLoadBalancer (listenAddr b) (backends b) v (mu b) (running b) (packetProcessor b).
Definition set_mu (v : RWMutex.t) (b : LoadBalancer) : LoadBalancer :=
  mkLoadBalancer (listenAddr b) (backends b) (listener b) v (running b) (packetProcessor b).
Definition set_running (v : bool) (b : LoadBalancer) : LoadBalancer :=
  mkLoadBalancer (listenAddr b) (backends b) (listener b) (mu b) v (packetProcessor b).

Definition InitLoadBalancer (listenAddr : string) (backends : list string)
  : ptr LoadBalancer * error :=
  let lb := mkLoadBalancer listenAddr backends None RWMutex.zero false None in
  (Some lb, None).

(** A method that takes the mutex: [None] when the caller waits on
    [Lock]; otherwise what the call did (result or panic), the balancer
    and the world afterwards.  [locked] runs [body] between [Lock] and
    the deferred [Unlock]. *)
Definition locked (lb : LoadBalancer) (w : world)
    (body : LoadBalancer -> world -> run error * LoadBalancer * world)
  : option (run error * LoadBalancer * world) :=
  match RWMutex.Lock (mu lb) with
  | None => None
  | Some m =>
      let '(r, lb, w) := body (set_mu m lb) w in
      match RWMutex.Unlock (mu lb) with
      | Ret m' => Some (r, set_mu m' lb, w)
      | Panic why => Some (Panic why, lb, w)
      end
  end.

Definition Start (lb : LoadBalancer) (w : world)
  : option (run error * LoadBalancer * world) :=
  locked lb w (fun lb w =>
    if running lb then (Ret None, lb, w)
    else
      let '((listener, err), w) := ListenPacket "udp" (listenAddr lb) w in
      match err with
      | Some e => (Ret (Some e), lb, w)
      | None =>
          let lb := set_listener listener lb in
          let lb := set_running true lb in
          (Ret None, lb, w)
      end).

Definition Shutdown (lb : LoadBalancer) (w : world)
  : option (run error * LoadBalancer * world) :=
  locked lb w (fun lb w =>
    if negb (running lb) then (Ret None, lb, w)
    else
      match listener lb with
      | None => (Panic NilDereference, lb, w)
      | Some c =>
          let '(err, w) := Close c w in
          match err with
          | Some e => (Ret (Some e), lb, w)
          | None => (Ret None, set_running false lb, w)
          end
      end).

(** [ExtractCID] is given no definition.  Its body,
    [lb.packetProcessor.HeaderParser.ExtractCID(packet)], selects a member
    [HeaderParser] through a pointer to the interface; the interface has no
    such member and Go's type checker refuses the selector, so the method
    has no behaviour to describe. *)

End LoadBalancer.

End lb.

(** ** Datagrams, outcomes and the packets used below *)

Import packet.

(** Every cell of the backing array holds a byte. *)
Definition bytes_ok (s : slice) : Prop := Forall is_uint8 (elems s ++ spare s).
#[export] Instance bytes_ok_dec s : Decision (bytes_ok s).
Proof. unfold bytes_ok. apply _. Defined.

(** Byte [i] of the datagram, when it has one. *)
Definition byte_at (packet : slice) (i : Z) : option Z :=
  if bool_decide (0 <= i) then elems packet !! Z.to_nat i else None.

(** Bit 7 of byte 0 set: long form; clear: short form. *)
Definition long_form (packet : slice) : Prop :=
  exists b0, byte_at packet 0 = Some b0 /\ Z.testbit b0 7 = true.
Definition short_form (packet : slice) : Prop :=
  exists b0, byte_at packet 0 = Some b0 /\ Z.testbit b0 7 = false.

(** The call returned a non-nil error. *)
Definition fails_with_error {A} (c : run (A * error)) : Prop :=
  exists a e, c = Ret (a, Some e).

(** The only ways a parse ends: a result with a nil error, or one of the two
    bounds checks of the run time. *)
Definition nil_error_or_bounds_panic {A} (c : run (A * error)) : Prop :=
  match c with
  | Ret (_, e) => e = None
  | Panic why => why = IndexOutOfRange \/ why = SliceBoundsOutOfRange
  end.

(** The big-endian value of four bytes. *)
Definition be32 (b1 b2 b3 b4 : Z) : Z :=
  b1 * 2 ^ 24 + b2 * 2 ^ 16 + b3 * 2 ^ 8 + b4.

(** The datagram holds its whole header and the [uint8] sums of the parser
    stay below 256: one byte and [L] CID bytes for the short form; six
    bytes, [d] destination-CID bytes, the source-CID length [s] and [s]
    source-CID bytes for the long form. *)
Definition complete_header (p : PacketProcessor.t) (packet : slice) : bool :=
  match byte_at packet 0 with
  | None => false
  | Some b0 =>
      if Z.testbit b0 7 then
        match byte_at packet 5 with
        | None => false
        | Some d =>
            match byte_at packet (6 + d) with
            | None => false
            | Some s =>
                bool_decide (7 + d + s <= len packet) && bool_decide (7 + d + s <= 255)
            end
        end
      else
        bool_decide (1 + PacketProcessor.DCIDLength p <= len packet)
        && bool_decide (0 <= PacketProcessor.DCIDLength p <= 254)
  end.

(** A slice made by a composite literal [[]byte{...}]: no spare capacity. *)
Definition literal (bytes : list Z) : slice := mkslice bytes [].

(** What [ReadPacket] returns for a datagram: [buffer[:n]] of a fresh
    1500-byte buffer, so the spare capacity is zeroes. *)
Definition read_buffer (bytes : list Z) : slice :=
  mkslice bytes (replicate (1500 - length bytes)%nat 0).

(** The packets of the repository's tests. *)
Definition test_long_packet : slice :=
  literal [0xC0; 0x00; 0x00; 0x00; 0x01; 0x08;
           0x01; 0x02; 0x03; 0x04; 0x05; 0x06; 0x07; 0x08;
           0x04; 0x0A; 0x0B; 0x0C; 0x0D].
Definition test_short_packet : slice :=
  literal [0x40; 0x01; 0x02; 0x03; 0x04; 0x05; 0x06; 0x07; 0x08].
Definition test_processor : PacketProcessor.t := PacketProcessor.mk 8.

(** A short-form packet whose first byte [0x5D = 0101 1101] has reserved
    bits [11], key phase [1] and packet-number length [01]. *)
Definition busy_short_packet : slice :=
  literal [0x5D; 0x01; 0x02; 0x03; 0x04; 0x05; 0x06; 0x07; 0x08].

(** Long form, version 1, both CID lengths zero. *)
Definition empty_cid_packet : slice := literal [0xC0; 0; 0; 0; 1; 0; 0].

(** The same with the type bits [10] in byte 0 (Handshake). *)
Definition handshake_packet : slice := literal [0xE0; 0; 0; 0; 1; 0; 0].

(** A lone long-form first byte. *)
Definition one_byte_long_packet : slice := literal [0xC0].

(** A complete 256-byte long-form datagram of a version other than 1: an
    8-byte destination CID and a 241-byte source CID, so that the seven fixed
    bytes and the two CIDs add up to 256. *)
Definition long_cid_packet : slice :=
  literal ([0xC0; 0x1A; 0x2A; 0x3A; 0x4A; 8; 1; 2; 3; 4; 5; 6; 7; 8; 241]
           ++ replicate 241 0xAB).

(** The same size with an empty destination CID and a 249-byte source CID. *)
Definition zero_dcid_long_scid_packet : slice :=
  literal ([0xC0; 0x1A; 0x2A; 0x3A; 0x4A; 0; 249] ++ replicate 249 0xAB).

(** The datagram ends before its source-CID length byte: it has fewer than
    six bytes, or fewer than seven plus its declared destination-CID
    length. *)
Definition cut_before_scid (packet : slice) : bool :=
  match byte_at packet 5 with
  | None => true
  | Some d => bool_decide (len packet < 7 + d)
  end.

(** A stand-in network for running the balancer's methods: connections and
    the world are [unit], listening is refused and closing succeeds. *)
Definition refuse_listen (network addr : string) (w : unit)
  : (option unit * error) * unit :=
  ((None, Some "listen refused"%string), w).
Definition close_ok (c : unit) (w : unit) : error * unit := (None, w).

(** A balancer that was started, and one that was not. *)
Definition running_balancer : lb.LoadBalancer unit :=
  lb.mkLoadBalancer unit ":8080"%string
    ["backend1"; "backend2"; "backend3"]%string
    (Some tt) lb.RWMutex.zero true None.
Definition stopped_balancer : lb.LoadBalancer unit :=
  lb.mkLoadBalancer unit ":8080"%string
    ["backend1"; "backend2"; "backend3"]%string
    None lb.RWMutex.zero false None.

(** ** Package lb: reading a packet *)

(** [make([]byte, n)]: [n] zero bytes and no spare capacity. *)
Definition make_bytes (n : nat) : slice := mkslice (replicate n 0) [].

Section ReadPacket.

(** [ReadFrom] belongs to the connection: given the buffer it returns the
    buffer as it is after the call, the count [n], the sender's address and
    the error. *)
Variable PacketConn : Type.
Variable Addr : Type.
Variable world : Type.
Variable ReadFrom :
  PacketConn -> slice -> world -> (slice * Z * option Addr * error) * world.

Definition ReadPacket (b : lb.LoadBalancer PacketConn) (w : world)
  : run (slice * option Addr * error) * world :=
  let buffer := make_bytes 1500 in
  match lb.listener PacketConn b with
  | None => (Panic NilDereference, w)
  | Some c =>
      let '((buffer, n, addr, err), w) := ReadFrom c buffer w in
      match err with
      | Some e => (Ret (nil_slice, None, Some e), w)
      | None => (packet ← reslice buffer 0 n; Ret (packet, addr, None), w)
      end
  end.

End ReadPacket.

(** ** What the further properties speak of *)

(** The exact condition under which [parseLongHeader] returns: the datagram
    reaches its source-CID length byte, at offset [6 + d] with [d <= 249],
    and either [d = 249], where the start of the source CID wraps to 0, or
    the end [7 + d + s] of the source CID neither wraps nor passes the
    capacity. *)
Definition long_header_parses (packet : slice) : bool :=
  match byte_at packet 5 with
  | None => false
  | Some d =>
      bool_decide (d <= 249)
      && match byte_at packet (6 + d) with
         | None => false
         | Some s =>
             bool_decide (d = 249)
             || (bool_decide (7 + d + s <= 255)
                 && bool_decide (7 + d + s <= cap packet))
         end
  end.

(** The same for [parseShortHeader]: a first byte, and room in the backing
    array for a CID of [L <= 254] bytes. *)
Definition short_header_parses (p : PacketProcessor.t) (packet : slice) : bool :=
  match byte_at packet 0 with
  | None => false
  | Some _ =>
      bool_decide (PacketProcessor.DCIDLength p <= 254)
      && bool_decide (1 + PacketProcessor.DCIDLength p <= cap packet)
  end.

(** Every field of a header is in the range of its Go type, and the bit
    fields in the range of their width. *)
Definition long_fields_in_range (h : LongHeader.t) : Prop :=
  LongHeader.HeaderForm h = 1
  /\ 0 <= LongHeader.LongPacketType h < 2
  /\ 0 <= LongHeader.TypeSpecific h < 16
  /\ 0 <= LongHeader.Version h < 2 ^ 32
  /\ is_uint8 (LongHeader.DCIDLength h)
  /\ is_uint8 (LongHeader.SCIDLength h).
Definition short_fields_in_range (h : ShortHeader.t) : Prop :=
  ShortHeader.HeaderForm h = 0
  /\ 0 <= ShortHeader.ReservedBits h < 4
  /\ 0 <= ShortHeader.KeyPhase h < 2
  /\ 0 <= ShortHeader.PacketNumberLength h < 4
  /\ ShortHeader.PacketNumber h = 0.
Definition header_in_range (v : QuicHeaderValue) : Prop :=
  match v with
  | OfLong (Some h) => long_fields_in_range h
  | OfShort (Some h) => short_fields_in_range h
  | _ => False
  end.

(** The wire images of a long-form and of a short-form packet: the long form
    carries the lengths of its CIDs, the short form does not. *)
Definition long_datagram (b0 b1 b2 b3 b4 : Z) (dcid scid payload : list Z)
  : list Z :=
  [b0; b1; b2; b3; b4; Z.of_nat (length dcid)] ++ dcid
  ++ [Z.of_nat (length scid)] ++ scid ++ payload.
Definition short_datagram (b0 : Z) (cid payload : list Z) : list Z :=
  b0 :: cid ++ payload.

(** A running balancer has a listener. *)
Definition listener_ready {PacketConn : Type} (b : lb.LoadBalancer PacketConn) : Prop :=
  lb.running PacketConn b = true -> lb.listener PacketConn b <> None.

(** [ListenPacket] never returns a nil connection with a nil error. *)
Definition listen_contract {PacketConn world : Type}
    (ListenPacket : string -> string -> world -> (option PacketConn * error) * world)
  : Prop :=
  forall network addr w l w',
    ListenPacket network addr w = ((l, None), w') -> l <> None.

(** [ReadFrom] hands the buffer back with the length and capacity it had. *)
Definition read_contract {PacketConn Addr world : Type}
    (ReadFrom : PacketConn -> slice -> world -> (slice * Z * option Addr * error) * world)
  : Prop :=
  forall c buffer w buffer' n addr err w',
    ReadFrom c buffer w = ((buffer', n, addr, err), w') ->
    len buffer' = len buffer /\ cap buffer' = cap buffer.

(** More stand-ins for the network: listening and closing that succeed or
    fail, and a connection that delivers one given datagram. *)
Definition accept_listen (network addr : string) (w : unit)
  : (option unit * error) * unit :=
  ((Some tt, None), w).
Definition close_fails (c : unit) (w : unit) : error * unit :=
  (Some "close failed"%string, w).
Definition deliver (data : list Z) (c : unit) (buffer : slice) (w : unit)
  : (slice * Z * option unit * error) * unit :=
  ((mkslice (take (length (elems buffer)) (data ++ drop (length data) (elems buffer)))
            (spare buffer),
    Z.of_nat (min (length data) (length (elems buffer))), Some tt, None), w).

(** A long-form datagram of 256 bytes that declares a 249-byte destination
    CID: offset 255 holds the source-CID length, 3. *)
Definition dcid_249_packet : slice :=
  literal ([0xC0; 0x1A; 0x2A; 0x3A; 0x4A; 249] ++ replicate 249 0x07 ++ [3]).

(** The short-form test packet cut to five bytes, as [ReadPacket] hands it
    over. *)
Definition cut_short_read : slice := read_buffer [0x40; 0x01; 0x02; 0x03; 0x04].

(** The ways a call of [ParsePacket] ends, with the header made explicit: a
    non-nil header of one of the two forms with a nil error, or one of the
    two bounds checks of the run time. *)
Definition header_or_bounds_panic (c : run (QuicHeaderValue * error)) : Prop :=
  match c with
  | Ret (v, e) =>
      e = None
      /\ ((exists h, v = OfLong (Some h)) \/ (exists h, v = OfShort (Some h)))
  | Panic why => why = IndexOutOfRange \/ why = SliceBoundsOutOfRange
  end.

(** A long-form datagram of nine bytes that declares an empty destination
    CID and four source-CID bytes, of which two arrived: as a literal, and as
    [ReadPacket] hands it over. *)
Definition cut_scid_bytes : list Z := [0xC0; 0; 0; 0; 1; 0; 4; 0xAA; 0xBB].
Definition cut_scid_packet : slice := literal cut_scid_bytes.
Definition cut_scid_read : slice := read_buffer cut_scid_bytes.

(** A processor that expects 255-byte CIDs, the largest [DCIDLength] holds,
    and a short-form datagram of exactly [1 + 255] bytes: the first byte of
    [busy_short_packet] and a full CID. *)
Definition length_255_processor : PacketProcessor.t := PacketProcessor.mk 255.
Definition full_short_packet : slice := literal (0x5D :: replicate 255 0x07).

(** ** Facts about the run time *)

Section run_facts.
Context {A B : Type}.

Lemma bind_Ret_inv (c : run A) (k : A -> run B) b :
  mbind k c = Ret b -> exists a, c = Ret a /\ k a = Ret b.
Proof. destruct c as [a|why]; intros H; [eauto | discriminate]. Qed.

End run_facts.

Section slice_facts.
Implicit Types (s : slice) (i lo hi : Z).

Lemma len_le_cap s : len s <= cap s.
Proof. unfold len, cap. rewrite length_app. lia. Qed.

Lemma byte_at_Some s i b :
  byte_at s i = Some b <-> 0 <= i /\ elems s !! Z.to_nat i = Some b.
Proof.
  unfold byte_at. case_bool_decide; [tauto|].
  split; [discriminate | intros [? _]; lia].
Qed.

Lemma byte_at_lt s i b : byte_at s i = Some b -> 0 <= i < len s.
Proof.
  rewrite byte_at_Some. intros [Hi Hb]. apply lookup_lt_Some in Hb.
  unfold len. lia.
Qed.

Lemma byte_at_None s i : byte_at s i = None <-> ~ (0 <= i < len s).
Proof.
  unfold byte_at, len. case_bool_decide.
  - rewrite lookup_ge_None. lia.
  - split; [lia | reflexivity].
Qed.

Lemma byte_at_is_uint8 s i b : bytes_ok s -> byte_at s i = Some b -> is_uint8 b.
Proof.
  unfold bytes_ok. rewrite byte_at_Some, Forall_app, Forall_lookup.
  intros [Hok _] [_ Hb]. exact (Hok _ _ Hb).
Qed.

(** Indexing is reading the byte, and its only panic is the index check. *)
Lemma index_byte_at s i :
  index s i = match byte_at s i with
              | Some b => Ret b
              | None => Panic IndexOutOfRange
              end.
Proof.
  unfold index. destruct (byte_at s i) as [b|] eqn:Hb.
  - pose proof (byte_at_lt _ _ _ Hb). apply byte_at_Some in Hb as [_ ->].
    rewrite bool_decide_true by assumption. reflexivity.
  - apply byte_at_None in Hb. rewrite bool_decide_false by assumption.
    reflexivity.
Qed.

Lemma index_Some s i b : byte_at s i = Some b -> index s i = Ret b.
Proof. intros H. rewrite index_byte_at, H. reflexivity. Qed.

Lemma index_Panic s i why : index s i = Panic why -> why = IndexOutOfRange.
Proof. rewrite index_byte_at. destruct (byte_at s i); congruence. Qed.

Lemma reslice_in s lo hi :
  0 <= lo <= hi -> hi <= cap s ->
  reslice s lo hi =
    Ret (mkslice (take (Z.to_nat (hi - lo)) (drop (Z.to_nat lo) (elems s ++ spare s)))
                 (drop (Z.to_nat hi) (elems s ++ spare s))).
Proof. intros H1 H2. unfold reslice. rewrite bool_decide_true by tauto. reflexivity. Qed.

Lemma reslice_out s lo hi :
  ~ (0 <= lo <= hi /\ hi <= cap s) -> reslice s lo hi = Panic SliceBoundsOutOfRange.
Proof. intros H. unfold reslice. rewrite bool_decide_false by assumption. reflexivity. Qed.

Lemma reslice_Panic s lo hi why :
  reslice s lo hi = Panic why -> why = SliceBoundsOutOfRange.
Proof. unfold reslice. case_bool_decide; congruence. Qed.

Lemma reslice_Ret s lo hi r :
  reslice s lo hi = Ret r -> 0 <= lo <= hi /\ hi <= cap s.
Proof. unfold reslice. case_bool_decide; [tauto | discriminate]. Qed.

(** A window that ends inside the datagram shows datagram bytes only. *)
Lemma window_inside s lo hi :
  0 <= lo <= hi -> hi <= len s ->
  take (Z.to_nat (hi - lo)) (drop (Z.to_nat lo) (elems s ++ spare s))
  = take (Z.to_nat (hi - lo)) (drop (Z.to_nat lo) (elems s)).
Proof.
  intros H1 H2. unfold len in H2.
  rewrite drop_app_le by lia. rewrite take_app_le; [reflexivity|].
  rewrite length_drop. lia.
Qed.

End slice_facts.

(** ** Big-endian words

    Or-ing a value below [2 ^ n] with one shifted left by [n] adds them, so
    [BigEndian.Uint32] of four bytes is their big-endian value. *)
Lemma lor_shiftl_add lo hi n :
  0 <= n -> 0 <= lo < 2 ^ n -> Z.lor lo (Z.shiftl hi n) = lo + hi * 2 ^ n.
Proof.
  intros Hn Hlo.
  assert (Hland : Z.land lo (Z.shiftl hi n) = 0).
  { apply Z.bits_inj'. intros k Hk. rewrite Z.land_spec, Z.bits_0.
    destruct (Z.lt_ge_cases k n) as [Hlt|Hge].
    - rewrite Z.shiftl_spec_low by assumption. apply andb_false_r.
    - destruct (Z.eq_dec lo 0) as [->|Hne]; [rewrite Z.bits_0; reflexivity|].
      rewrite (Z.bits_above_log2 lo k); [reflexivity | lia |].
      apply Z.log2_lt_pow2; [lia|].
      apply Z.lt_le_trans with (2 ^ n); [lia|]. apply Z.pow_le_mono_r; lia. }
  rewrite <- Z.lxor_lor by assumption.
  rewrite <- Z.add_nocarry_lxor by assumption.
  rewrite Z.shiftl_mul_pow2 by assumption. reflexivity.
Qed.

Lemma lor_mul_add lo hi n :
  0 <= n -> 0 <= lo < 2 ^ n -> Z.lor lo (hi * 2 ^ n) = lo + hi * 2 ^ n.
Proof.
  intros Hn Hlo. rewrite <- Z.shiftl_mul_pow2 by assumption.
  rewrite lor_shiftl_add by assumption.
  rewrite Z.shiftl_mul_pow2 by assumption. reflexivity.
Qed.

Lemma wrap32_shifted_byte b n :
  is_uint8 b -> 0 <= n <= 24 -> wrap32 (Z.shiftl (wrap32 b) n) = b * 2 ^ n.
Proof.
  unfold is_uint8, wrap32. intros Hb Hn.
  change (2 ^ 32) with 4294967296.
  rewrite (Z.mod_small b) by lia.
  rewrite Z.shiftl_mul_pow2 by lia.
  apply Z.mod_small.
  assert (0 < 2 ^ n) by (apply Z.pow_pos_nonneg; lia).
  assert (2 ^ n <= 2 ^ 24) by (apply Z.pow_le_mono_r; lia).
  change (2 ^ 24) with 16777216 in *. nia.
Qed.

Lemma Uint32_be32 b1 b2 b3 b4 rest :
  is_uint8 b1 -> is_uint8 b2 -> is_uint8 b3 -> is_uint8 b4 ->
  BigEndian_Uint32 (mkslice [b1; b2; b3; b4] rest) = Ret (be32 b1 b2 b3 b4).
Proof.
  intros H1 H2 H3 H4.
  unfold BigEndian_Uint32, index, len. simpl. f_equal.
  rewrite (wrap32_shifted_byte b3 8), (wrap32_shifted_byte b2 16),
    (wrap32_shifted_byte b1 24) by (first [assumption | lia]).
  replace (wrap32 b4) with b4
    by (unfold wrap32, is_uint8 in *; change (2 ^ 32) with 4294967296;
        rewrite Z.mod_small; lia).
  unfold is_uint8, be32 in *.
  rewrite (lor_mul_add b4 b3 8), (lor_mul_add (b4 + b3 * 2 ^ 8) b2 16),
    (lor_mul_add (b4 + b3 * 2 ^ 8 + b2 * 2 ^ 16) b1 24);
    change (2 ^ 8) with 256; change (2 ^ 16) with 65536;
    change (2 ^ 24) with 16777216; lia.
Qed.

(** ** The parser on complete headers *)

Ltac hdr_fields :=
  cbn [LongHeader.zero LongHeader.set_HeaderForm LongHeader.set_LongPacketType
       LongHeader.set_TypeSpecific LongHeader.set_Version
       LongHeader.set_DCIDLength LongHeader.set_DCID LongHeader.set_SCIDLength
       LongHeader.set_SCID LongHeader.HeaderForm LongHeader.LongPacketType
       LongHeader.TypeSpecific LongHeader.Version LongHeader.DCIDLength
       LongHeader.DCID LongHeader.SCIDLength LongHeader.SCID
       ShortHeader.zero ShortHeader.set_HeaderForm ShortHeader.set_ReservedBits
       ShortHeader.set_KeyPhase ShortHeader.set_PacketNumberLength
       ShortHeader.set_DCID ShortHeader.HeaderForm ShortHeader.ReservedBits
       ShortHeader.KeyPhase ShortHeader.PacketNumberLength ShortHeader.DCID
       ShortHeader.PacketNumber].
Ltac run_step := cbn [mbind run_bind Go.bind]; hdr_fields.

Lemma add8_small a b : 0 <= a + b < 256 -> add8 a b = a + b.
Proof. intros H. unfold add8, wrap8. apply Z.mod_small. assumption. Qed.

(** The long form, with the datagram spelled out: first byte, four version
    bytes, the destination-CID length [d], and a [body] that holds [d] bytes
    and the source-CID length [s]; the backing array holds [s] more bytes. *)
Lemma parseLongHeader_fits_cap p b0 b1 b2 b3 b4 d s body sp :
  is_uint8 b1 -> is_uint8 b2 -> is_uint8 b3 -> is_uint8 b4 ->
  0 <= d -> 0 <= s ->
  body !! Z.to_nat d = Some s ->
  d + 1 + s <= Z.of_nat (length (body ++ sp)) ->
  7 + d + s <= 255 ->
  parseLongHeader p (mkslice (b0 :: b1 :: b2 :: b3 :: b4 :: d :: body) sp)
  = Ret (Some (LongHeader.mk 1 (Z.land (Z.shiftr b0 4) 0x1) (Z.land b0 0x0F)
                 (be32 b1 b2 b3 b4) d
                 (mkslice (take (Z.to_nat d) body) (drop (Z.to_nat d) (body ++ sp)))
                 s
                 (mkslice (take (Z.to_nat s) (drop (Z.to_nat (d + 1)) (body ++ sp)))
                          (drop (Z.to_nat (d + 1 + s)) (body ++ sp)))),
          None).
Proof.
  intros H1 H2 H3 H4 Hd Hs Hsl Hlen Hsum.
  pose proof (lookup_lt_Some _ _ _ Hsl) as Hdlt.
  set (packet := mkslice _ sp).
  assert (Hcap : cap packet = 6 + Z.of_nat (length (body ++ sp))).
  { unfold cap, packet. cbn [elems spare app length]. lia. }
  rewrite length_app in Hlen, Hcap.
  unfold parseLongHeader.
  rewrite (index_Some packet 0 b0) by reflexivity. run_step.
  rewrite (reslice_in packet 1 5) by lia. run_step.
  change (take (Z.to_nat (5 - 1)) (drop (Z.to_nat 1) (elems packet ++ spare packet)))
    with [b1; b2; b3; b4].
  rewrite Uint32_be32 by assumption. run_step.
  rewrite (index_Some packet 5 d) by reflexivity. run_step.
  rewrite (add8_small 6 d) by lia.
  rewrite (reslice_in packet 6 (6 + d)) by lia. run_step.
  rewrite (index_Some packet (6 + d) s).
  2:{ apply byte_at_Some. split; [lia|]. unfold packet. cbn [elems].
      replace (Z.to_nat (6 + d)) with (6 + Z.to_nat d)%nat by lia. exact Hsl. }
  run_step.
  rewrite (add8_small (6 + d) 1) by lia.
  rewrite (add8_small (6 + d + 1) s) by lia.
  rewrite (reslice_in packet (6 + d + 1) (6 + d + 1 + s)) by lia. run_step.
  unfold packet. cbn [elems spare].
  replace (6 + d - 6) with d by lia.
  replace (6 + d + 1 + s - (6 + d + 1)) with s by lia.
  replace (Z.to_nat 6) with 6%nat by reflexivity.
  replace (Z.to_nat (6 + d)) with (6 + Z.to_nat d)%nat by lia.
  replace (Z.to_nat (6 + d + 1)) with (6 + Z.to_nat (d + 1))%nat by lia.
  replace (Z.to_nat (6 + d + 1 + s)) with (6 + Z.to_nat (d + 1 + s))%nat by lia.
  cbn [app drop Nat.add].
  rewrite (take_app_le body sp) by lia.
  reflexivity.
Qed.

(** When the datagram itself holds the [s] source-CID bytes, both CIDs are
    datagram bytes. *)
Lemma parseLongHeader_fits p b0 b1 b2 b3 b4 d s body sp :
  is_uint8 b1 -> is_uint8 b2 -> is_uint8 b3 -> is_uint8 b4 ->
  0 <= d -> 0 <= s ->
  body !! Z.to_nat d = Some s ->
  d + 1 + s <= Z.of_nat (length body) ->
  7 + d + s <= 255 ->
  parseLongHeader p (mkslice (b0 :: b1 :: b2 :: b3 :: b4 :: d :: body) sp)
  = Ret (Some (LongHeader.mk 1 (Z.land (Z.shiftr b0 4) 0x1) (Z.land b0 0x0F)
                 (be32 b1 b2 b3 b4) d
                 (mkslice (take (Z.to_nat d) body) (drop (Z.to_nat d) (body ++ sp)))
                 s
                 (mkslice (take (Z.to_nat s) (drop (Z.to_nat (d + 1)) body))
                          (drop (Z.to_nat (d + 1 + s)) (body ++ sp)))),
          None).
Proof.
  intros H1 H2 H3 H4 Hd Hs Hsl Hlen Hsum.
  rewrite (parseLongHeader_fits_cap p b0 b1 b2 b3 b4 d s body sp); try assumption.
  - rewrite (drop_app_le body sp (Z.to_nat (d + 1))) by lia.
    rewrite (take_app_le (drop _ body) _); [reflexivity|].
    rewrite length_drop. lia.
  - rewrite length_app. lia.
Qed.

Lemma add8_wrap a b : 256 <= a + b < 512 -> add8 a b = a + b - 256.
Proof.
  intros H. unfold add8, wrap8.
  rewrite <- (Z.mod_small (a + b - 256) 256) by lia.
  replace (a + b) with (a + b - 256 + 1 * 256) at 1 by lia.
  apply Z.mod_add. lia.
Qed.

Lemma index_Ret s i b : index s i = Ret b -> byte_at s i = Some b.
Proof. rewrite index_byte_at. destruct (byte_at s i); congruence. Qed.

Lemma Uint32_Panic b why : BigEndian_Uint32 b = Panic why -> why = IndexOutOfRange.
Proof.
  unfold BigEndian_Uint32.
  repeat match goal with
         | |- Go.bind ?c _ = _ -> _ =>
             let E := fresh "E" in
             destruct c eqn:E; cbn [Go.bind];
             [| apply index_Panic in E; congruence]
         end.
  discriminate.
Qed.

(** The short form is one index and one re-slice. *)
Lemma parseShortHeader_eq p packet :
  parseShortHeader p packet =
    match byte_at packet 0 with
    | None => Panic IndexOutOfRange
    | Some b0 =>
        dcid ← reslice packet 1 (add8 1 (PacketProcessor.DCIDLength p));
        Ret (Some (ShortHeader.mk 0 (Z.land (Z.shiftr b0 3) 0x3)
                     (Z.land (Z.shiftr b0 2) 0x1) (Z.land b0 0x3) dcid 0),
             None)
    end.
Proof.
  unfold parseShortHeader. rewrite index_byte_at.
  destruct (byte_at packet 0); reflexivity.
Qed.

(** Neither parser ever returns an error, and nothing but a bounds check
    stops them. *)
Ltac outcome_steps :=
  repeat match goal with
         | |- nil_error_or_bounds_panic (mbind _ ?c) =>
             let E := fresh "E" in
             destruct c eqn:E; run_step;
             [| first [apply index_Panic in E | apply reslice_Panic in E
                      | apply Uint32_Panic in E];
                subst; simpl; auto]
         end.

Lemma parseLongHeader_outcome p packet :
  nil_error_or_bounds_panic (parseLongHeader p packet).
Proof. unfold parseLongHeader. outcome_steps. reflexivity. Qed.

Lemma parseShortHeader_outcome p packet :
  nil_error_or_bounds_panic (parseShortHeader p packet).
Proof. unfold parseShortHeader. outcome_steps. reflexivity. Qed.

Lemma no_error_of_outcome {A} (c : run (A * error)) :
  nil_error_or_bounds_panic c -> ~ fails_with_error c.
Proof. intros H (a & e & ->). discriminate H. Qed.

(** Bit 7 of a byte is its header form. *)
Lemma shiftr7_testbit b :
  is_uint8 b -> bool_decide (Z.shiftr b 7 = 1) = Z.testbit b 7.
Proof.
  unfold is_uint8. intros Hb.
  replace (Z.testbit b 7) with (Z.odd (Z.shiftr b 7))
    by (rewrite <- Z.bit0_odd, Z.shiftr_spec by lia; reflexivity).
  rewrite Z.shiftr_div_pow2 by lia. change (2 ^ 7) with 128.
  assert (H : b / 128 = 0 \/ b / 128 = 1).
  { assert (0 <= b / 128 < 2); [|lia].
    split; [apply Z.div_pos; lia | apply Z.div_lt_upper_bound; lia]. }
  destruct H as [-> | ->]; reflexivity.
Qed.

Lemma land_1_cases x : Z.land x 1 = 1 \/ Z.land x 1 = 0.
Proof.
  change 1 with (Z.ones 1) at 1 3. rewrite Z.land_ones by lia.
  change (2 ^ 1) with 2. pose proof (Z.mod_pos_bound x 2). lia.
Qed.

(** [ParsePacket] reads byte 0, its assertion holds, and bit 7 picks the
    parser. *)
Lemma ParsePacket_eq p packet b0 :
  byte_at packet 0 = Some b0 -> is_uint8 b0 ->
  ParsePacket p packet =
    if Z.testbit b0 7
    then r ← parseLongHeader p packet; Ret (as_long r)
    else r ← parseShortHeader p packet; Ret (as_short r).
Proof.
  intros Hb0 Hu. unfold ParsePacket.
  rewrite (index_Some _ _ _ Hb0). run_step.
  replace (bool_decide (Z.land (Z.shiftr b0 7) 1 = 1)
           || bool_decide (Z.land (Z.shiftr b0 7) 1 = 0)) with true.
  2:{ destruct (land_1_cases (Z.shiftr b0 7)) as [E|E]; rewrite E; reflexivity. }
  cbn [assert]. run_step.
  rewrite shiftr7_testbit by assumption. reflexivity.
Qed.

Lemma ParsePacket_outcome p packet :
  nil_error_or_bounds_panic (ParsePacket p packet).
Proof.
  unfold ParsePacket.
  destruct (index packet 0) as [b0|why] eqn:E0; run_step;
    [| apply index_Panic in E0; subst; simpl; auto].
  replace (bool_decide (Z.land (Z.shiftr b0 7) 1 = 1)
           || bool_decide (Z.land (Z.shiftr b0 7) 1 = 0)) with true.
  2:{ destruct (land_1_cases (Z.shiftr b0 7)) as [E|E]; rewrite E; reflexivity. }
  cbn [assert]. run_step.
  case_bool_decide.
  - pose proof (parseLongHeader_outcome p packet) as H'.
    destruct (parseLongHeader p packet) as [[h e]|why]; exact H'.
  - pose proof (parseShortHeader_outcome p packet) as H'.
    destruct (parseShortHeader p packet) as [[h e]|why]; exact H'.
Qed.

(** What a returned long header was built from. *)
Lemma parseLongHeader_inv p packet r :
  parseLongHeader p packet = Ret r ->
  exists b0 d s dcid scid v,
    byte_at packet 0 = Some b0 /\ byte_at packet 5 = Some d
    /\ byte_at packet (add8 6 d) = Some s
    /\ reslice packet 6 (add8 6 d) = Ret dcid
    /\ reslice packet (add8 (add8 6 d) 1) (add8 (add8 (add8 6 d) 1) s) = Ret scid
    /\ r = (Some (LongHeader.mk 1 (Z.land (Z.shiftr b0 4) 0x1) (Z.land b0 0x0F)
                    v d dcid s scid), None).
Proof.
  unfold parseLongHeader. intros H.
  apply bind_Ret_inv in H as (b0 & H0 & H).
  apply bind_Ret_inv in H as (b0' & H0' & H).
  apply bind_Ret_inv in H as (vb & _ & H).
  apply bind_Ret_inv in H as (v & _ & H).
  apply bind_Ret_inv in H as (d & H5 & H). hdr_fields.
  apply bind_Ret_inv in H as (dcid & Hd & H).
  apply bind_Ret_inv in H as (s & Hs & H).
  apply bind_Ret_inv in H as (scid & Hsc & H).
  cbn in Hd, Hs, Hsc, H.
  apply index_Ret in H0, H0', H5, Hs.
  assert (b0' = b0) as -> by congruence.
  injection H as <-.
  exists b0, d, s, dcid, scid, v. repeat split; assumption.
Qed.

Lemma parseLongHeader_cut p packet :
  bytes_ok packet -> cut_before_scid packet = true ->
  panics (parseLongHeader p packet).
Proof.
  intros Hok Hcut.
  destruct (parseLongHeader p packet) as [r|why] eqn:E; [|eexists; reflexivity].
  exfalso.
  apply parseLongHeader_inv in E
    as (b0 & d & s & dcid & scid & v & _ & H5 & Hs & Hd & _ & _).
  unfold cut_before_scid in Hcut. rewrite H5 in Hcut.
  apply bool_decide_eq_true in Hcut.
  pose proof (byte_at_is_uint8 _ _ _ Hok H5) as Hu. unfold is_uint8 in Hu.
  apply byte_at_lt in Hs. apply reslice_Ret in Hd.
  destruct (Z_lt_le_dec (6 + d) 256).
  - rewrite add8_small in Hs by lia. lia.
  - rewrite add8_wrap in Hd by lia. lia.
Qed.

Lemma datagram_shape packet d :
  byte_at packet 5 = Some d ->
  exists b0 b1 b2 b3 b4 body, elems packet = b0 :: b1 :: b2 :: b3 :: b4 :: d :: body.
Proof.
  rewrite byte_at_Some. intros [_ H].
  destruct (elems packet) as [|b0 [|b1 [|b2 [|b3 [|b4 [|d' body]]]]]];
    try discriminate H.
  injection H as ->. eauto 10.
Qed.

(** A complete header parses, whichever the form. *)
Lemma parseLongHeader_complete p packet d s :
  bytes_ok packet ->
  byte_at packet 5 = Some d -> byte_at packet (6 + d) = Some s ->
  7 + d + s <= len packet -> 7 + d + s <= 255 ->
  exists h, parseLongHeader p packet = Ret (Some h, None)
    /\ LongHeader.DCIDLength h = d
    /\ elems (LongHeader.DCID h) = take (Z.to_nat d) (drop 6 (elems packet))
    /\ LongHeader.SCIDLength h = s
    /\ elems (LongHeader.SCID h)
       = take (Z.to_nat s) (drop (Z.to_nat (7 + d)) (elems packet))
    /\ (forall b1 b2 b3 b4,
          byte_at packet 1 = Some b1 -> byte_at packet 2 = Some b2 ->
          byte_at packet 3 = Some b3 -> byte_at packet 4 = Some b4 ->
          LongHeader.Version h = be32 b1 b2 b3 b4).
Proof.
  intros Hok H5 Hs Hlen Hsum.
  pose proof (byte_at_is_uint8 _ _ _ Hok H5) as Hd.
  pose proof (byte_at_is_uint8 _ _ _ Hok Hs) as Hsu.
  destruct (datagram_shape _ _ H5) as (b0 & b1 & b2 & b3 & b4 & body & Hel).
  destruct packet as [el sp]. cbn [elems] in Hel. subst el.
  unfold bytes_ok in Hok. cbn [elems spare app] in Hok.
  repeat match type of Hok with
         | Forall _ (_ :: _) => apply Forall_cons in Hok as [? Hok]
         end.
  apply byte_at_Some in Hs as [_ Hs]. cbn [elems] in Hs.
  replace (Z.to_nat (6 + d)) with (6 + Z.to_nat d)%nat in Hs by (unfold is_uint8 in Hd; lia).
  cbn [lookup list_lookup Nat.add] in Hs.
  unfold len in Hlen. cbn [elems length] in Hlen.
  unfold is_uint8 in Hd, Hsu.
  eexists. split.
  { apply (parseLongHeader_fits p b0 b1 b2 b3 b4 d s body sp); try assumption; lia. }
  cbn [LongHeader.DCIDLength LongHeader.DCID LongHeader.SCIDLength
       LongHeader.SCID LongHeader.Version elems].
  repeat split.
  - replace (Z.to_nat (7 + d)) with (6 + Z.to_nat (d + 1))%nat by lia.
    reflexivity.
  - intros c1 c2 c3 c4 E1 E2 E3 E4. cbv in E1, E2, E3, E4. congruence.
Qed.

(** When only source-CID bytes are missing from the datagram, the capacity
    decides: with room for them in the backing array the parse returns, and
    the source CID it returns has the declared length. *)
Lemma parseLongHeader_room p packet d s :
  bytes_ok packet ->
  byte_at packet 5 = Some d -> byte_at packet (6 + d) = Some s ->
  7 + d + s <= cap packet -> 7 + d + s <= 255 ->
  exists h, parseLongHeader p packet = Ret (Some h, None)
    /\ LongHeader.DCIDLength h = d
    /\ elems (LongHeader.DCID h) = take (Z.to_nat d) (drop 6 (elems packet))
    /\ LongHeader.SCIDLength h = s
    /\ len (LongHeader.SCID h) = s.
Proof.
  intros Hok H5 Hs Hcap Hsum.
  pose proof (byte_at_is_uint8 _ _ _ Hok H5) as Hd.
  pose proof (byte_at_is_uint8 _ _ _ Hok Hs) as Hsu.
  destruct (datagram_shape _ _ H5) as (b0 & b1 & b2 & b3 & b4 & body & Hel).
  destruct packet as [el sp]. cbn [elems] in Hel. subst el.
  unfold bytes_ok in Hok. cbn [elems spare app] in Hok.
  repeat match type of Hok with
         | Forall _ (_ :: _) => apply Forall_cons in Hok as [? Hok]
         end.
  apply byte_at_Some in Hs as [_ Hs]. cbn [elems] in Hs.
  replace (Z.to_nat (6 + d)) with (6 + Z.to_nat d)%nat in Hs by (unfold is_uint8 in Hd; lia).
  cbn [lookup list_lookup Nat.add] in Hs.
  unfold cap in Hcap. cbn [elems spare app length] in Hcap.
  unfold is_uint8 in Hd, Hsu.
  eexists. split.
  { apply (parseLongHeader_fits_cap p b0 b1 b2 b3 b4 d s body sp);
      try assumption; lia. }
  cbn [LongHeader.DCIDLength LongHeader.DCID LongHeader.SCIDLength
       LongHeader.SCID elems].
  repeat split.
  unfold len. cbn [elems]. rewrite length_take, length_drop. lia.
Qed.

Lemma parseLongHeader_no_room p packet d s :
  bytes_ok packet ->
  byte_at packet 5 = Some d -> byte_at packet (6 + d) = Some s ->
  cap packet < 7 + d + s -> 7 + d + s <= 255 ->
  parseLongHeader p packet = Panic SliceBoundsOutOfRange.
Proof.
  intros Hok H5 Hs Hcap Hsum.
  pose proof (byte_at_is_uint8 _ _ _ Hok H5) as Hd.
  pose proof (byte_at_is_uint8 _ _ _ Hok Hs) as Hsu.
  unfold is_uint8 in Hd, Hsu.
  pose proof (byte_at_lt _ _ _ Hs) as Hlt.
  pose proof (len_le_cap packet) as Hlc.
  destruct (datagram_shape _ _ H5) as (b0 & b1 & b2 & b3 & b4 & body & Hel).
  assert (H0 : byte_at packet 0 = Some b0).
  { apply byte_at_Some. rewrite Hel. split; [lia | reflexivity]. }
  assert (H14 : exists v, (vb ← reslice packet 1 5; BigEndian_Uint32 vb) = Ret v).
  { rewrite (reslice_in packet 1 5) by lia. run_step. rewrite Hel.
    cbn [app drop take Z.to_nat Pos.to_nat Pos.iter_op Nat.add Z.sub Z.add
         Z.opp Z.pos_sub Pos.pred_double].
    unfold BigEndian_Uint32, index, len. cbn. eexists. reflexivity. }
  destruct H14 as [v Hv].
  unfold parseLongHeader.
  rewrite (index_Some _ _ _ H0). run_step.
  destruct (reslice packet 1 5) as [vb|] eqn:Evb; [|discriminate Hv].
  run_step. cbn [mbind run_bind Go.bind] in Hv. rewrite Hv. run_step.
  rewrite (index_Some _ _ _ H5). run_step.
  rewrite (add8_small 6 d) by lia.
  rewrite (reslice_in packet 6 (6 + d)) by lia. run_step.
  rewrite (index_Some _ _ _ Hs). run_step.
  rewrite (add8_small (6 + d) 1) by lia.
  rewrite (add8_small (6 + d + 1) s) by lia.
  rewrite (reslice_out packet) by lia. reflexivity.
Qed.

(** The short form on a datagram whose backing array holds the CID. *)
Lemma parseShortHeader_fits p packet b0 :
  byte_at packet 0 = Some b0 ->
  1 <= add8 1 (PacketProcessor.DCIDLength p) <= cap packet ->
  parseShortHeader p packet =
    Ret (Some (ShortHeader.mk 0 (Z.land (Z.shiftr b0 3) 0x3)
                 (Z.land (Z.shiftr b0 2) 0x1) (Z.land b0 0x3)
                 (mkslice
                    (take (Z.to_nat (add8 1 (PacketProcessor.DCIDLength p) - 1))
                          (drop (Z.to_nat 1) (elems packet ++ spare packet)))
                    (drop (Z.to_nat (add8 1 (PacketProcessor.DCIDLength p)))
                          (elems packet ++ spare packet)))
                 0),
         None).
Proof.
  intros H0 Hfit. rewrite parseShortHeader_eq, H0.
  rewrite reslice_in by lia. reflexivity.
Qed.

Lemma parseShortHeader_no_room p packet b0 :
  byte_at packet 0 = Some b0 ->
  ~ (1 <= add8 1 (PacketProcessor.DCIDLength p) <= cap packet) ->
  parseShortHeader p packet = Panic SliceBoundsOutOfRange.
Proof.
  intros H0 Hfit. rewrite parseShortHeader_eq, H0.
  rewrite reslice_out by lia. reflexivity.
Qed.

(** ** The claims *)

(** C1 (the code departs from the claim).  The claim takes the long packet
    type from the two bits 4-5 of byte 0, [(byte0 >> 4) & 0x3].  The parser
    masks with [0x1]: on the long-form datagram whose byte 0 is [0xE0] (type
    bits [10], Handshake) it returns a header, with a nil error, whose type
    is Initial. *)
Theorem C1_handshake_bits_parsed_as_initial :
  byte_at handshake_packet 0 = Some 0xE0
  /\ Z.land (Z.shiftr 0xE0 4) 0x3 = HandShake
  /\ exists h,
       parseLongHeader test_processor handshake_packet = Ret (Some h, None)
       /\ LongHeader.LongPacketType h = Initial
       /\ LongHeader.LongPacketType h <> HandShake.
Proof.
  split; [reflexivity|]. split; [reflexivity|].
  eexists. split; [vm_compute; reflexivity|].
  split; [reflexivity | discriminate].
Qed.

(** Whatever the datagram, the type that [parseLongHeader] stores is bit 4
    of byte 0 alone: Initial or ZeroRTT, never HandShake or Retry. *)
Lemma parseLongHeader_type_is_bit4 p packet h e :
  parseLongHeader p packet = Ret (Some h, e) ->
  exists b0, byte_at packet 0 = Some b0
    /\ LongHeader.LongPacketType h = Z.land (Z.shiftr b0 4) 0x1
    /\ (LongHeader.LongPacketType h = Initial \/ LongHeader.LongPacketType h = ZeroRTT).
Proof.
  intros H. apply parseLongHeader_inv in H
    as (b0 & d & s & dcid & scid & v & H0 & _ & _ & _ & _ & E).
  injection E as -> _. exists b0. split; [assumption|]. split; [reflexivity|].
  cbn [LongHeader.LongPacketType]. unfold Initial, ZeroRTT.
  destruct (land_1_cases (Z.shiftr b0 4)); auto.
Qed.

(** C2, as stated, fails: the one-byte long-form datagram [0xC0] is shorter
    than six bytes, yet parsing it returns no error; it stops in the
    slice-bounds panic of [packet[1:5]]. *)
Lemma C2_one_byte_long_packet_panics :
  long_form one_byte_long_packet
  /\ len one_byte_long_packet < 6
  /\ parseLongHeader test_processor one_byte_long_packet
     = Panic SliceBoundsOutOfRange
  /\ ~ fails_with_error (parseLongHeader test_processor one_byte_long_packet).
Proof.
  split; [exists 0xC0; split; reflexivity|].
  split; [reflexivity|]. split; [reflexivity|].
  intros (a & e & H). discriminate H.
Qed.

(** Source-CID bytes that are missing from the datagram are taken from the
    spare capacity when there is some: in a read buffer, a seven-byte
    datagram that declares four source-CID bytes parses, and its SCID is
    four bytes from beyond the datagram. *)
Example parseLongHeader_reads_spare_capacity :
  exists h,
    parseLongHeader test_processor (read_buffer [0xC0; 0; 0; 0; 1; 0; 4])
    = Ret (Some h, None)
    /\ elems (LongHeader.SCID h) = [0; 0; 0; 0].
Proof. eexists. split; [vm_compute; reflexivity | reflexivity]. Qed.

(** C3, as stated, fails: the nine-byte short-form test packet with an
    expected CID length of 9 is shorter than 1 + 9, yet parsing returns no
    error; it stops in the slice-bounds panic of [packet[1:10]]. *)
Lemma C3_nine_bytes_length_nine_panics :
  short_form test_short_packet
  /\ len test_short_packet = 9
  /\ parseShortHeader (PacketProcessor.mk 9) test_short_packet
     = Panic SliceBoundsOutOfRange
  /\ ~ fails_with_error (parseShortHeader (PacketProcessor.mk 9) test_short_packet).
Proof.
  split; [exists 0x40; split; reflexivity|].
  split; [reflexivity|]. split; [reflexivity|].
  intros (a & e & H). discriminate H.
Qed.

(** C3 (amended).  For a short-form datagram and an expected CID length
    [L <= 254], what decides is the capacity of the datagram's backing array:
    with fewer than [1 + L] bytes there, [parseShortHeader] stops in the
    slice-bounds panic; otherwise it returns a header, with a nil error, whose
    destination CID has exactly [L] bytes, and these are bytes 1 to [L] of
    the datagram whenever the datagram itself has [1 + L] bytes.  No error is
    ever returned. *)
Theorem C3_short_header_by_capacity p packet :
  short_form packet ->
  0 <= PacketProcessor.DCIDLength p <= 254 ->
  (cap packet < 1 + PacketProcessor.DCIDLength p ->
   parseShortHeader p packet = Panic SliceBoundsOutOfRange)
  /\ (1 + PacketProcessor.DCIDLength p <= cap packet ->
      exists h,
        parseShortHeader p packet = Ret (Some h, None)
        /\ len (ShortHeader.DCID h) = PacketProcessor.DCIDLength p
        /\ (1 + PacketProcessor.DCIDLength p <= len packet ->
            elems (ShortHeader.DCID h)
            = take (Z.to_nat (PacketProcessor.DCIDLength p))
                   (drop 1 (elems packet))))
  /\ ~ fails_with_error (parseShortHeader p packet).
Proof.
  intros (b0 & H0 & _) HL.
  set (L := PacketProcessor.DCIDLength p) in *.
  assert (Hadd : add8 1 L = 1 + L) by (apply add8_small; lia).
  split; [|split].
  - intros Hcap. apply (parseShortHeader_no_room p packet b0 H0).
    fold L. rewrite Hadd. lia.
  - intros Hcap. eexists. split.
    { apply (parseShortHeader_fits p packet b0 H0). fold L. rewrite Hadd. lia. }
    cbn [ShortHeader.DCID]. fold L. rewrite Hadd.
    replace (1 + L - 1) with L by lia. split.
    + unfold len. cbn [elems]. unfold cap in Hcap.
      rewrite length_take, length_drop. lia.
    + intros Hlen. cbn [elems].
      pose proof (window_inside packet 1 (1 + L)) as W.
      replace (1 + L - 1) with L in W by lia.
      change (Z.to_nat 1) with 1%nat in *. apply W; lia.
  - apply no_error_of_outcome, parseShortHeader_outcome.
Qed.

(** The amended C3 at the nine-byte test packet with an expected length of 8:
    the parse succeeds and the CID is bytes 1 to 8. *)
Lemma C3_short_header_by_capacity_witness :
  short_form test_short_packet
  /\ 0 <= PacketProcessor.DCIDLength test_processor <= 254
  /\ exists h,
       parseShortHeader test_processor test_short_packet = Ret (Some h, None)
       /\ len (ShortHeader.DCID h) = 8
       /\ elems (ShortHeader.DCID h) = [1; 2; 3; 4; 5; 6; 7; 8].
Proof.
  assert (Hs : short_form test_short_packet)
    by (exists 0x40; split; reflexivity).
  assert (HL : 0 <= PacketProcessor.DCIDLength test_processor <= 254)
    by (cbn; lia).
  split; [exact Hs|]. split; [exact HL|].
  destruct (C3_short_header_by_capacity test_processor test_short_packet Hs HL)
    as (_ & Hfit & _).
  destruct Hfit as (h & Hh & Hlen & Hel); [vm_compute; discriminate|].
  exists h. split; [exact Hh|]. split; [exact Hlen|].
  apply Hel. vm_compute. discriminate.
Defined.

(** In a read buffer the same nine bytes with an expected length of 9 do
    parse: the ninth CID byte comes from beyond the datagram. *)
Example parseShortHeader_reads_spare_capacity :
  exists h,
    parseShortHeader (PacketProcessor.mk 9)
      (read_buffer [0x40; 1; 2; 3; 4; 5; 6; 7; 8]) = Ret (Some h, None)
    /\ elems (ShortHeader.DCID h) = [1; 2; 3; 4; 5; 6; 7; 8; 0].
Proof. eexists. split; [vm_compute; reflexivity | reflexivity]. Qed.

(** With an expected length of 255 the bound [1 + 255] wraps to 0 and
    [packet[1:0]] panics whatever the datagram holds. *)
Lemma parseShortHeader_length_255 packet :
  byte_at packet 0 <> None ->
  parseShortHeader (PacketProcessor.mk 255) packet = Panic SliceBoundsOutOfRange.
Proof.
  intros H. destruct (byte_at packet 0) as [b0|] eqn:H0; [|congruence].
  apply (parseShortHeader_no_room _ _ b0 H0).
  change (add8 1 (PacketProcessor.DCIDLength (PacketProcessor.mk 255))) with 0.
  lia.
Qed.

(** C4 (the code departs from the claim).  The long-form datagram
    [long_cid_packet] is complete: 256 bytes, a declared destination-CID
    length of 8 (within 0..20) and a declared source-CID length of 241, all
    present.  The claim has the parser recover its destination CID, version
    and CID length.  The parser computes the end of the source CID in
    [uint8]: 6 + 8 + 1 + 241 wraps to 0, [packet[15:0]] is out of bounds and
    the call panics; nothing is recovered. *)
Theorem C4_long_source_cid_wraps :
  bytes_ok long_cid_packet
  /\ long_form long_cid_packet
  /\ byte_at long_cid_packet 5 = Some 8
  /\ byte_at long_cid_packet (6 + 8) = Some 241
  /\ len long_cid_packet = 7 + 8 + 241
  /\ add8 (add8 (add8 6 8) 1) 241 = 0
  /\ parseLongHeader test_processor long_cid_packet = Panic SliceBoundsOutOfRange.
Proof.
  split; [apply (bool_decide_unpack _); vm_compute; exact I|].
  split; [exists 0xC0; split; reflexivity|].
  repeat split; vm_compute; reflexivity.
Qed.

(** Where the [uint8] sums do not wrap the parser does recover what was
    written: a datagram made of a first byte, four version bytes, the length
    of [dcid], [dcid], the length of [scid], [scid] and any payload parses to
    exactly these parts. *)
Lemma parseLongHeader_recovers p b0 b1 b2 b3 b4 dcid scid payload sp :
  is_uint8 b1 -> is_uint8 b2 -> is_uint8 b3 -> is_uint8 b4 ->
  7 + Z.of_nat (length dcid) + Z.of_nat (length scid) <= 255 ->
  exists h,
    parseLongHeader p
      (mkslice ([b0; b1; b2; b3; b4; Z.of_nat (length dcid)] ++ dcid
                ++ [Z.of_nat (length scid)] ++ scid ++ payload) sp)
    = Ret (Some h, None)
    /\ elems (LongHeader.DCID h) = dcid
    /\ LongHeader.DCIDLength h = Z.of_nat (length dcid)
    /\ LongHeader.Version h = be32 b1 b2 b3 b4
    /\ elems (LongHeader.SCID h) = scid
    /\ LongHeader.SCIDLength h = Z.of_nat (length scid).
Proof.
  intros H1 H2 H3 H4 Hsum.
  set (d := Z.of_nat (length dcid)). set (s := Z.of_nat (length scid)).
  set (body := dcid ++ [s] ++ scid ++ payload).
  assert (Hsl : body !! Z.to_nat d = Some s).
  { unfold body, d. rewrite Nat2Z.id. apply list_lookup_middle. reflexivity. }
  assert (Hlen : d + 1 + s <= Z.of_nat (length body)).
  { unfold body, d, s. rewrite !length_app. cbn [length]. lia. }
  eexists. split.
  { apply (parseLongHeader_fits p b0 b1 b2 b3 b4 d s body sp);
      try assumption; unfold d, s in *; lia. }
  cbn [LongHeader.DCID LongHeader.DCIDLength LongHeader.Version
       LongHeader.SCID LongHeader.SCIDLength elems].
  repeat split.
  - unfold body, d. rewrite Nat2Z.id. apply take_app_length.
  - unfold body, d, s.
    replace (Z.to_nat (Z.of_nat (length dcid) + 1)) with (length dcid + 1)%nat by lia.
    rewrite Nat2Z.id, <- drop_drop, drop_app_length. cbn [app drop].
    apply take_app_length.
Qed.

(** C5 (the code departs from the claim).  The claim has every long-form
    datagram that declares a zero-length destination CID parse, to an empty
    CID.  [zero_dcid_long_scid_packet] declares one and is complete (256
    bytes, a 249-byte source CID, all present); the parser computes
    6 + 0 + 1 + 249 in [uint8], which wraps to 0, and panics on
    [packet[7:0]]. *)
Theorem C5_zero_dcid_long_scid_wraps :
  bytes_ok zero_dcid_long_scid_packet
  /\ long_form zero_dcid_long_scid_packet
  /\ byte_at zero_dcid_long_scid_packet 5 = Some 0
  /\ byte_at zero_dcid_long_scid_packet 6 = Some 249
  /\ len zero_dcid_long_scid_packet = 7 + 0 + 249
  /\ parseLongHeader test_processor zero_dcid_long_scid_packet
     = Panic SliceBoundsOutOfRange.
Proof.
  split; [apply (bool_decide_unpack _); vm_compute; exact I|].
  split; [exists 0xC0; split; reflexivity|].
  repeat split; vm_compute; reflexivity.
Qed.

(** The seven-byte scenario of the claim does hold: an Initial packet with
    empty DCID and SCID. *)
Example empty_cid_packet_parses :
  exists h,
    ParsePacket test_processor empty_cid_packet = Ret (OfLong (Some h), None)
    /\ LongHeader.LongPacketType h = Initial
    /\ LongHeader.Version h = 1
    /\ elems (LongHeader.DCID h) = []
    /\ elems (LongHeader.SCID h) = [].
Proof. eexists. split; [vm_compute; reflexivity|]. repeat split. Qed.

(** So does every complete datagram with a zero-length destination CID whose
    source CID is at most 248 bytes long. *)
Lemma zero_dcid_parses p packet s :
  bytes_ok packet ->
  byte_at packet 5 = Some 0 -> byte_at packet 6 = Some s ->
  7 + s <= len packet -> s <= 248 ->
  exists h, parseLongHeader p packet = Ret (Some h, None)
    /\ LongHeader.DCIDLength h = 0
    /\ elems (LongHeader.DCID h) = [].
Proof.
  intros Hok H5 H6 Hlen Hs.
  destruct (parseLongHeader_complete p packet 0 s Hok H5 H6)
    as (h & Hh & Hd & Hel & _); [lia | lia |].
  exists h. split; [exact Hh|]. split; [exact Hd|]. rewrite Hel. reflexivity.
Qed.

(** A datagram of at least [1 + L] bytes, [L <= 254], has the room that
    the re-slice of the short form asks for. *)
Lemma short_room_of_length p packet :
  0 <= PacketProcessor.DCIDLength p <= 254 ->
  1 + PacketProcessor.DCIDLength p <= len packet ->
  1 <= add8 1 (PacketProcessor.DCIDLength p) <= cap packet.
Proof.
  intros HL Hlen. pose proof (len_le_cap packet).
  rewrite add8_small by lia. lia.
Qed.

(** On a datagram with first byte [b0], [ParsePacket] takes the short path
    exactly when bit 7 of [b0] is clear; and when it is clear and the
    re-slice [packet[1 : 1+L]], its end computed in [uint8], is within the
    backing array, the header it returns carries reserved bits
    [(b0 >> 3) & 0x3], key phase [(b0 >> 2) & 0x1] and packet-number length
    [b0 & 0x3]. *)
Lemma short_header_bit_fields p packet b0 :
  byte_at packet 0 = Some b0 ->
  is_uint8 b0 ->
  (Z.testbit b0 7 = false ->
   1 <= add8 1 (PacketProcessor.DCIDLength p) <= cap packet ->
   exists dcid,
     ParsePacket p packet
     = Ret (OfShort (Some (ShortHeader.mk 0 (Z.land (Z.shiftr b0 3) 0x3)
                             (Z.land (Z.shiftr b0 2) 0x1) (Z.land b0 0x3)
                             dcid 0)),
            None))
  /\ (Z.testbit b0 7 = false ->
      ParsePacket p packet = (r ← parseShortHeader p packet; Ret (as_short r)))
  /\ (Z.testbit b0 7 = true ->
      ParsePacket p packet = (r ← parseLongHeader p packet; Ret (as_long r)))
  /\ (forall v e, ParsePacket p packet = Ret (v, e) ->
      ((exists sh, v = OfShort sh) <-> Z.testbit b0 7 = false)).
Proof.
  intros H0 Hu. rewrite (ParsePacket_eq p packet b0 H0 Hu).
  split; [|split; [|split]].
  - intros Hbit Hfit. rewrite Hbit.
    rewrite (parseShortHeader_fits p packet b0 H0 Hfit).
    eexists. reflexivity.
  - intros ->. reflexivity.
  - intros ->. reflexivity.
  - intros v e. destruct (Z.testbit b0 7); intros H.
    + apply bind_Ret_inv in H as (r & _ & H). injection H as <- _.
      split; [intros [sh Hsh]; discriminate Hsh | discriminate].
    + apply bind_Ret_inv in H as (r & _ & H). injection H as <- _.
      split; [reflexivity | eexists; reflexivity].
Qed.

(** At a first byte of [0x5D]: reserved bits 3, key phase 1, packet-number
    length 1. *)
Example short_header_bit_fields_at_5D :
  exists dcid,
    ParsePacket test_processor busy_short_packet
    = Ret (OfShort (Some (ShortHeader.mk 0 3 1 1 dcid 0)), None).
Proof.
  refine (proj1 (short_header_bit_fields test_processor busy_short_packet
                   0x5D eq_refl _) eq_refl _).
  - unfold is_uint8. lia.
  - vm_compute. split; discriminate.
Qed.

(** C6 (the code departs from the claim).  [full_short_packet] is a
    short-form datagram of [1 + 255] bytes, long enough for a processor whose
    [DCIDLength] is 255, and its first byte [0x5D] carries reserved bits 3,
    key phase 1 and packet-number length 1.  The parser computes the end of
    the CID in [uint8]: [1 + 255] wraps to 0, [packet[1:0]] is out of bounds,
    and [ParsePacket] panics without decoding a field.  With a [DCIDLength]
    of 254 the same datagram decodes as the claim has it. *)
Theorem C6_length_255_decodes_nothing :
  short_form full_short_packet
  /\ bytes_ok full_short_packet
  /\ len full_short_packet = 1 + PacketProcessor.DCIDLength length_255_processor
  /\ add8 1 (PacketProcessor.DCIDLength length_255_processor) = 0
  /\ parseShortHeader length_255_processor full_short_packet
     = Panic SliceBoundsOutOfRange
  /\ ParsePacket length_255_processor full_short_packet
     = Panic SliceBoundsOutOfRange
  /\ exists dcid,
       ParsePacket (PacketProcessor.mk 254) full_short_packet
       = Ret (OfShort (Some (ShortHeader.mk 0 3 1 1 dcid 0)), None).
Proof.
  assert (H0 : byte_at full_short_packet 0 = Some 0x5D) by reflexivity.
  assert (Hu : is_uint8 0x5D) by (unfold is_uint8; lia).
  assert (Hp : parseShortHeader length_255_processor full_short_packet
               = Panic SliceBoundsOutOfRange).
  { apply parseShortHeader_length_255. rewrite H0. discriminate. }
  split; [exists 0x5D; split; [exact H0 | reflexivity]|].
  split; [apply (bool_decide_unpack _); vm_compute; exact I|].
  split; [reflexivity|]. split; [reflexivity|]. split; [exact Hp|]. split.
  - rewrite (ParsePacket_eq _ _ _ H0 Hu).
    change (Z.testbit 0x5D 7) with false. cbv iota. rewrite Hp. reflexivity.
  - refine (proj1 (short_header_bit_fields (PacketProcessor.mk 254)
                     full_short_packet 0x5D H0 Hu) eq_refl _).
    vm_compute. split; discriminate.
Qed.

(** C7, as stated, fails: on the empty datagram [ParsePacket] reads
    [packet[0]] and panics; no error is returned. *)
Lemma C7_empty_datagram_panics :
  len (literal []) = 0
  /\ ParsePacket test_processor (literal []) = Panic IndexOutOfRange
  /\ ~ fails_with_error (ParsePacket test_processor (literal [])).
Proof.
  split; [reflexivity|]. split; [reflexivity|].
  intros (a & e & H). discriminate H.
Qed.

(** ** The load balancer *)

(** A free mutex has no writer, and [Lock] takes it. *)
Lemma mutex_free m :
  lb.RWMutex.held m = false ->
  m = lb.RWMutex.mk false (lb.RWMutex.readers m)
  /\ lb.RWMutex.Lock m = Some (lb.RWMutex.mk true (lb.RWMutex.readers m)).
Proof.
  unfold lb.RWMutex.Lock. intros H. rewrite H.
  destruct m as [wr rd]. unfold lb.RWMutex.held in H. cbn in *.
  apply orb_false_iff in H as [-> _]. split; reflexivity.
Qed.

(** C8.  With the mutex free, [Start] on a balancer that is running and
    [Shutdown] on one that is not return a nil error and leave the balancer,
    every field of it, and the network as they were: no listener is opened
    and none is closed. *)
Theorem C8_start_shutdown_idempotent
    (PacketConn world : Type)
    (ListenPacket : string -> string -> world -> (option PacketConn * error) * world)
    (Close : PacketConn -> world -> error * world)
    (b : lb.LoadBalancer PacketConn) (w : world) :
  lb.RWMutex.held (lb.mu PacketConn b) = false ->
  (lb.running PacketConn b = true ->
   lb.Start PacketConn world ListenPacket b w = Some (Ret None, b, w))
  /\ (lb.running PacketConn b = false ->
      lb.Shutdown PacketConn world Close b w = Some (Ret None, b, w)).
Proof.
  intros Hfree. destruct (mutex_free _ Hfree) as [Hm Hlock].
  destruct b as [addr backs lis m run pp]. cbn [lb.mu lb.running] in *.
  split; intros ->.
  - unfold lb.Start, lb.locked. cbn [lb.mu]. rewrite Hlock. cbn.
    rewrite <- Hm. reflexivity.
  - unfold lb.Shutdown, lb.locked. cbn [lb.mu]. rewrite Hlock. cbn.
    rewrite <- Hm. reflexivity.
Qed.

(** C8 at a started and at a stopped balancer. *)
Lemma C8_start_shutdown_idempotent_witness :
  lb.RWMutex.held (lb.mu unit running_balancer) = false
  /\ lb.running unit running_balancer = true
  /\ lb.Start unit unit refuse_listen running_balancer tt
     = Some (Ret None, running_balancer, tt)
  /\ lb.RWMutex.held (lb.mu unit stopped_balancer) = false
  /\ lb.running unit stopped_balancer = false
  /\ lb.Shutdown unit unit close_ok stopped_balancer tt
     = Some (Ret None, stopped_balancer, tt).
Proof.
  assert (Hfree : lb.RWMutex.held (lb.mu unit running_balancer) = false)
    by reflexivity.
  assert (Hrun : lb.running unit running_balancer = true) by reflexivity.
  assert (Hfree' : lb.RWMutex.held (lb.mu unit stopped_balancer) = false)
    by reflexivity.
  assert (Hstop : lb.running unit stopped_balancer = false) by reflexivity.
  split; [exact Hfree|]. split; [exact Hrun|]. split.
  - exact (proj1 (C8_start_shutdown_idempotent unit unit refuse_listen close_ok
                    running_balancer tt Hfree) Hrun).
  - split; [exact Hfree'|]. split; [exact Hstop|].
    exact (proj2 (C8_start_shutdown_idempotent unit unit refuse_listen close_ok
                    stopped_balancer tt Hfree') Hstop).
Defined.

(** A [Start] that does open the listener sets the flag, so the next one
    changes nothing. *)
Lemma Start_twice (PacketConn world : Type)
    (ListenPacket : string -> string -> world -> (option PacketConn * error) * world)
    (b b' : lb.LoadBalancer PacketConn) (w w' : world) :
  lb.running PacketConn b = false ->
  lb.Start PacketConn world ListenPacket b w = Some (Ret None, b', w') ->
  lb.Start PacketConn world ListenPacket b' w' = Some (Ret None, b', w').
Proof.
  intros Hrun H. destruct b as [addr backs lis m run pp].
  cbn [lb.running] in Hrun. subst run.
  unfold lb.Start, lb.locked in H. cbn [lb.mu] in H.
  unfold lb.RWMutex.Lock in H.
  destruct (lb.RWMutex.held m) eqn:Hheld; [discriminate|].
  cbn in H. destruct (ListenPacket "udp"%string addr w) as [[l err] w1].
  destruct err as [e|]; cbn in H; [discriminate|].
  injection H as <- <-.
  unfold lb.Start, lb.locked. cbn.
  unfold lb.RWMutex.held in Hheld. cbn. 
  destruct m as [wr rd]. cbn in *. apply orb_false_iff in Hheld as [_ Hrd].
  unfold lb.RWMutex.Lock, lb.RWMutex.held. cbn. rewrite Hrd. reflexivity.
Qed.

(** C9.  Through a non-nil pointer every accessor of both header types
    returns its field and a nil error; [ShortHeader.GetPacketType] returns
    OneRTT for every receiver; and no accessor, whatever the receiver or the
    interface value it is called through, returns a non-nil error. *)
Theorem C9_accessors_nil_error (lh : LongHeader.t) (sh : ShortHeader.t) :
  GetCID (Some lh : ptr LongHeader.t) = Ret (LongHeader.DCID lh, None)
  /\ GetPacketType (Some lh : ptr LongHeader.t) = Ret (LongHeader.LongPacketType lh, None)
  /\ GetHeaderForm (Some lh : ptr LongHeader.t) = Ret (LongHeader.HeaderForm lh, None)
  /\ GetCID (Some sh : ptr ShortHeader.t) = Ret (ShortHeader.DCID sh, None)
  /\ GetHeaderForm (Some sh : ptr ShortHeader.t) = Ret (ShortHeader.HeaderForm sh, None)
  /\ (forall r : ptr ShortHeader.t, GetPacketType r = Ret (OneRTT, None))
  /\ (forall v : QuicHeaderValue,
        ~ fails_with_error (GetCID v)
        /\ ~ fails_with_error (GetPacketType v)
        /\ ~ fails_with_error (GetHeaderForm v)).
Proof.
  repeat split; try reflexivity;
    intros (a & e & H);
    destruct v as [|[h|]|[h|]]; discriminate H.
Qed.

(** * Further properties of the parser *)

(** ** Bit fields and words stay in range *)

Lemma land_low_bits x n : 0 <= n -> 0 <= Z.land x (2 ^ n - 1) < 2 ^ n.
Proof.
  intros Hn. replace (2 ^ n - 1) with (Z.ones n) by (rewrite Z.ones_equiv; lia).
  rewrite Z.land_ones by assumption. apply Z.mod_pos_bound.
  apply Z.pow_pos_nonneg; lia.
Qed.

Lemma lor_below a b n :
  0 <= n -> 0 <= a < 2 ^ n -> 0 <= b < 2 ^ n -> 0 <= Z.lor a b < 2 ^ n.
Proof.
  intros Hn Ha Hb.
  assert (Hnn : 0 <= Z.lor a b) by (apply Z.lor_nonneg; lia).
  split; [assumption|].
  destruct (Z.eq_dec (Z.lor a b) 0) as [->|Hne]; [apply Z.pow_pos_nonneg; lia|].
  assert (Hpos : 0 < n).
  { destruct (Z.eq_dec n 0) as [->|]; [|lia].
    change (2 ^ 0) with 1 in *.
    assert (a = 0) as -> by lia. assert (b = 0) as -> by lia.
    contradiction Hne. reflexivity. }
  apply Z.log2_lt_pow2; [lia|].
  rewrite Z.log2_lor by lia.
  apply Z.max_lub_lt.
  - destruct (Z.eq_dec a 0) as [->|]; [exact Hpos | apply Z.log2_lt_pow2; lia].
  - destruct (Z.eq_dec b 0) as [->|]; [exact Hpos | apply Z.log2_lt_pow2; lia].
Qed.

Lemma wrap32_range z : 0 <= wrap32 z < 2 ^ 32.
Proof. unfold wrap32. apply Z.mod_pos_bound. reflexivity. Qed.

Lemma Uint32_range b v : BigEndian_Uint32 b = Ret v -> 0 <= v < 2 ^ 32.
Proof.
  unfold BigEndian_Uint32. intros H.
  repeat match type of H with
         | Go.bind ?c _ = _ =>
             destruct c; cbn [Go.bind] in H; [|discriminate H]
         end.
  injection H as <-.
  repeat apply lor_below; try apply wrap32_range; lia.
Qed.

(** The version bytes of a datagram that has its sixth byte. *)
Lemma version_read packet b1 b2 b3 b4 d :
  byte_at packet 1 = Some b1 -> byte_at packet 2 = Some b2 ->
  byte_at packet 3 = Some b3 -> byte_at packet 4 = Some b4 ->
  byte_at packet 5 = Some d ->
  is_uint8 b1 -> is_uint8 b2 -> is_uint8 b3 -> is_uint8 b4 ->
  (vb ← reslice packet 1 5; BigEndian_Uint32 vb) = Ret (be32 b1 b2 b3 b4).
Proof.
  intros E1 E2 E3 E4 E5 H1 H2 H3 H4.
  pose proof (byte_at_lt _ _ _ E5). pose proof (len_le_cap packet).
  destruct (datagram_shape _ _ E5) as (c0 & c1 & c2 & c3 & c4 & body & Hel).
  rewrite byte_at_Some, Hel in E1, E2, E3, E4.
  destruct E1 as [_ E1], E2 as [_ E2], E3 as [_ E3], E4 as [_ E4].
  cbn in E1, E2, E3, E4.
  injection E1 as ->. injection E2 as ->. injection E3 as ->. injection E4 as ->.
  rewrite (reslice_in packet 1 5) by lia. run_step. rewrite Hel.
  change (take (Z.to_nat (5 - 1)) (drop (Z.to_nat 1)
            ((c0 :: b1 :: b2 :: b3 :: b4 :: d :: body) ++ spare packet)))
    with [b1; b2; b3; b4].
  apply Uint32_be32; assumption.
Qed.

(** [parseLongHeader] step by step: what it reads and which re-slices it
    makes, in both directions. *)
Lemma parseLongHeader_spec p packet hp e :
  parseLongHeader p packet = Ret (hp, e) <->
  exists b0 vb v d s dcid scid,
    byte_at packet 0 = Some b0
    /\ reslice packet 1 5 = Ret vb /\ BigEndian_Uint32 vb = Ret v
    /\ byte_at packet 5 = Some d
    /\ reslice packet 6 (add8 6 d) = Ret dcid
    /\ byte_at packet (add8 6 d) = Some s
    /\ reslice packet (add8 (add8 6 d) 1) (add8 (add8 (add8 6 d) 1) s) = Ret scid
    /\ hp = Some (LongHeader.mk 1 (Z.land (Z.shiftr b0 4) 0x1) (Z.land b0 0x0F)
                    v d dcid s scid)
    /\ e = None.
Proof.
  unfold parseLongHeader. split.
  - intros H.
    apply bind_Ret_inv in H as (b0 & H0 & H).
    apply bind_Ret_inv in H as (b0' & H0' & H).
    apply bind_Ret_inv in H as (vb & Hvb & H).
    apply bind_Ret_inv in H as (v & Hv & H).
    apply bind_Ret_inv in H as (d & H5 & H). hdr_fields.
    apply bind_Ret_inv in H as (dcid & Hd & H).
    apply bind_Ret_inv in H as (s & Hs & H).
    apply bind_Ret_inv in H as (scid & Hsc & H).
    cbn in Hd, Hs, Hsc, H.
    apply index_Ret in H0, H0', H5, Hs.
    assert (b0' = b0) as -> by congruence.
    injection H as <- <-.
    exists b0, vb, v, d, s, dcid, scid. repeat split; assumption.
  - intros (b0 & vb & v & d & s & dcid & scid
            & H0 & Hvb & Hv & H5 & Hd & Hs & Hsc & -> & ->).
    rewrite (index_Some _ _ _ H0). run_step.
    rewrite Hvb. run_step. rewrite Hv. run_step.
    rewrite (index_Some _ _ _ H5). run_step.
    rewrite Hd. run_step.
    rewrite (index_Some _ _ _ Hs). run_step.
    rewrite Hsc. reflexivity.
Qed.

(** The [uint8] arithmetic of a parse that returned: the end of the
    destination CID did not wrap, and either its successor wrapped to 0
    ([d = 249]) or the end of the source CID did not wrap either. *)
Lemma long_bounds packet d s dcid scid :
  is_uint8 d -> is_uint8 s ->
  reslice packet 6 (add8 6 d) = Ret dcid ->
  reslice packet (add8 (add8 6 d) 1) (add8 (add8 (add8 6 d) 1) s) = Ret scid ->
  d <= 249 /\ add8 6 d = 6 + d
  /\ ((d = 249 /\ add8 (add8 6 d) 1 = 0 /\ add8 (add8 (add8 6 d) 1) s = s)
      \/ (d < 249 /\ add8 (add8 6 d) 1 = 7 + d
          /\ add8 (add8 (add8 6 d) 1) s = 7 + d + s /\ 7 + d + s <= 255
          /\ 7 + d + s <= cap packet)).
Proof.
  unfold is_uint8. intros Hd Hs Hrd Hrs.
  apply reslice_Ret in Hrd.
  assert (Hd249 : d <= 249).
  { destruct (Z_le_gt_dec d 249); [assumption|].
    rewrite add8_wrap in Hrd by lia. lia. }
  assert (E6 : add8 6 d = 6 + d) by (apply add8_small; lia).
  rewrite E6 in *. split; [assumption|]. split; [reflexivity|].
  destruct (Z.eq_dec d 249) as [->|Hne].
  - left. split; [reflexivity|].
    change (add8 (6 + 249) 1) with 0. split; [reflexivity|].
    apply add8_small. lia.
  - right. split; [lia|].
    assert (E7 : add8 (6 + d) 1 = 7 + d) by (rewrite add8_small; lia).
    rewrite E7 in *. split; [reflexivity|].
    apply reslice_Ret in Hrs.
    destruct (Z_le_gt_dec (7 + d + s) 255).
    + rewrite add8_small in * by lia. lia.
    + rewrite add8_wrap in Hrs by lia. lia.
Qed.

Lemma reslice_shape s lo hi r :
  reslice s lo hi = Ret r ->
  len r = hi - lo /\ cap r = cap s - lo
  /\ elems r = take (Z.to_nat (hi - lo)) (drop (Z.to_nat lo) (elems s ++ spare s)).
Proof.
  intros H. pose proof (reslice_Ret _ _ _ _ H) as [Hlo Hhi].
  rewrite reslice_in in H by assumption. injection H as <-.
  unfold len, cap in *. cbn [elems spare].
  set (backing := elems s ++ spare s) in *. clearbody backing.
  rewrite length_app, length_take, !length_drop.
  repeat split; try reflexivity; lia.
Qed.

(** The first six bytes of a datagram that has them: byte 0, and a version
    that [BigEndian.Uint32] reads without a panic. *)
Lemma header_prefix packet d :
  bytes_ok packet -> byte_at packet 5 = Some d ->
  exists b0 vb b1 b2 b3 b4,
    byte_at packet 0 = Some b0
    /\ byte_at packet 1 = Some b1 /\ byte_at packet 2 = Some b2
    /\ byte_at packet 3 = Some b3 /\ byte_at packet 4 = Some b4
    /\ reslice packet 1 5 = Ret vb
    /\ BigEndian_Uint32 vb = Ret (be32 b1 b2 b3 b4).
Proof.
  intros Hok E5.
  destruct (datagram_shape _ _ E5) as (b0 & b1 & b2 & b3 & b4 & body & Hel).
  assert (E0 : byte_at packet 0 = Some b0) by (apply byte_at_Some; rewrite Hel; split; [lia|reflexivity]).
  assert (E1 : byte_at packet 1 = Some b1) by (apply byte_at_Some; rewrite Hel; split; [lia|reflexivity]).
  assert (E2 : byte_at packet 2 = Some b2) by (apply byte_at_Some; rewrite Hel; split; [lia|reflexivity]).
  assert (E3 : byte_at packet 3 = Some b3) by (apply byte_at_Some; rewrite Hel; split; [lia|reflexivity]).
  assert (E4 : byte_at packet 4 = Some b4) by (apply byte_at_Some; rewrite Hel; split; [lia|reflexivity]).
  pose proof (version_read packet b1 b2 b3 b4 d E1 E2 E3 E4 E5
                (byte_at_is_uint8 _ _ _ Hok E1) (byte_at_is_uint8 _ _ _ Hok E2)
                (byte_at_is_uint8 _ _ _ Hok E3) (byte_at_is_uint8 _ _ _ Hok E4)) as Hv.
  apply bind_Ret_inv in Hv as (vb & Hvb & Hv).
  exists b0, vb, b1, b2, b3, b4. repeat split; assumption.
Qed.

(** ** When the long-form parser returns *)

Lemma parseLongHeader_returns p packet :
  bytes_ok packet -> long_header_parses packet = true ->
  exists h, parseLongHeader p packet = Ret (Some h, None).
Proof.
  intros Hok Hp. unfold long_header_parses in Hp.
  destruct (byte_at packet 5) as [d|] eqn:E5; [|discriminate].
  apply andb_true_iff in Hp as [Hd Hp]. apply bool_decide_eq_true in Hd.
  destruct (byte_at packet (6 + d)) as [s|] eqn:Es; [|discriminate].
  pose proof (byte_at_is_uint8 _ _ _ Hok E5) as Hud.
  pose proof (byte_at_is_uint8 _ _ _ Hok Es) as Hus.
  pose proof (byte_at_lt _ _ _ Es) as Hlt.
  pose proof (len_le_cap packet) as Hlc.
  unfold is_uint8 in Hud, Hus.
  destruct (header_prefix packet d Hok E5)
    as (b0 & vb & b1 & b2 & b3 & b4 & E0 & _ & _ & _ & _ & Hvb & Hv).
  assert (E6 : add8 6 d = 6 + d) by (apply add8_small; lia).
  assert (exists scid,
            reslice packet (add8 (add8 6 d) 1) (add8 (add8 (add8 6 d) 1) s)
            = Ret scid) as [scid Hsc].
  { rewrite E6. apply orb_true_iff in Hp as [Hp|Hp].
    - apply bool_decide_eq_true in Hp. subst d.
      change (add8 (6 + 249) 1) with 0. rewrite (add8_small 0 s) by lia.
      rewrite reslice_in by lia. eexists. reflexivity.
    - apply andb_true_iff in Hp as [Hsum Hcap].
      apply bool_decide_eq_true in Hsum, Hcap.
      rewrite (add8_small (6 + d) 1), (add8_small (6 + d + 1) s) by lia.
      rewrite reslice_in by lia. eexists. reflexivity. }
  assert (exists dcid, reslice packet 6 (add8 6 d) = Ret dcid) as [dcid Hdc].
  { rewrite E6, reslice_in by lia. eexists. reflexivity. }
  eexists. apply parseLongHeader_spec.
  exists b0, vb, (be32 b1 b2 b3 b4), d, s, dcid, scid.
  rewrite E6 in *. repeat split; try eassumption.
Qed.

(** X1.  For a datagram of bytes, [long_header_parses] decides the parse:
    where it holds [parseLongHeader] returns a header with a nil error, and
    where it fails the call panics. *)
Theorem X1_parseLongHeader_returns_iff p packet :
  bytes_ok packet ->
  (long_header_parses packet = true ->
   exists h, parseLongHeader p packet = Ret (Some h, None))
  /\ (long_header_parses packet = false -> panics (parseLongHeader p packet)).
Proof.
  intros Hok. split; [apply parseLongHeader_returns; assumption|].
  intros Hp.
  destruct (parseLongHeader p packet) as [[hp e]|why] eqn:E; [|eexists; reflexivity].
  exfalso. apply parseLongHeader_spec in E
    as (b0 & vb & v & d & s & dcid & scid & _ & _ & _ & E5 & Hdc & Es & Hsc & _).
  pose proof (byte_at_is_uint8 _ _ _ Hok E5) as Hud.
  pose proof (byte_at_is_uint8 _ _ _ Hok Es) as Hus.
  destruct (long_bounds packet d s dcid scid Hud Hus Hdc Hsc) as (Hd & E6 & Hcase).
  unfold long_header_parses in Hp. rewrite E5 in Hp. rewrite E6 in Es.
  rewrite Es in Hp. rewrite (bool_decide_true (d <= 249)) in Hp by assumption.
  destruct Hcase as [(-> & _) | (_ & _ & _ & Hsum & Hcap)].
  - discriminate Hp.
  - rewrite (bool_decide_true (7 + d + s <= 255)) in Hp by assumption.
    rewrite (bool_decide_true (7 + d + s <= cap packet)) in Hp by assumption.
    rewrite orb_true_r in Hp. discriminate Hp.
Qed.

(** X1 at the long-form packet of the repository's test and at a lone first
    byte. *)
Lemma X1_parseLongHeader_returns_iff_witness :
  bytes_ok test_long_packet
  /\ long_header_parses test_long_packet = true
  /\ (exists h, parseLongHeader test_processor test_long_packet = Ret (Some h, None))
  /\ bytes_ok one_byte_long_packet
  /\ long_header_parses one_byte_long_packet = false
  /\ panics (parseLongHeader test_processor one_byte_long_packet).
Proof.
  assert (Hok : bytes_ok test_long_packet)
    by (apply (bool_decide_unpack _); vm_compute; exact I).
  assert (Hok' : bytes_ok one_byte_long_packet)
    by (apply (bool_decide_unpack _); vm_compute; exact I).
  assert (Hp : long_header_parses test_long_packet = true) by reflexivity.
  assert (Hp' : long_header_parses one_byte_long_packet = false) by reflexivity.
  split; [exact Hok|]. split; [exact Hp|]. split.
  - exact (proj1 (X1_parseLongHeader_returns_iff test_processor test_long_packet Hok) Hp).
  - split; [exact Hok'|]. split; [exact Hp'|].
    exact (proj2 (X1_parseLongHeader_returns_iff test_processor one_byte_long_packet Hok') Hp').
Defined.

(** X2.  Whatever [parseLongHeader] returns for a datagram of bytes is a
    non-nil header with a nil error whose length fields are bytes 5 and
    [6 + d] of the datagram and agree with the lengths of its two CID
    slices, and whose destination CID is bytes 6 to [5 + d] of the datagram,
    all of them inside the datagram. *)
Theorem X2_long_header_invariants p packet hp e :
  bytes_ok packet ->
  parseLongHeader p packet = Ret (hp, e) ->
  exists h d s,
    hp = Some h /\ e = None
    /\ byte_at packet 5 = Some d /\ byte_at packet (6 + d) = Some s
    /\ LongHeader.DCIDLength h = d /\ LongHeader.SCIDLength h = s
    /\ len (LongHeader.DCID h) = d /\ len (LongHeader.SCID h) = s
    /\ 6 + d < len packet
    /\ elems (LongHeader.DCID h) = take (Z.to_nat d) (drop 6 (elems packet)).
Proof.
  intros Hok E. apply parseLongHeader_spec in E
    as (b0 & vb & v & d & s & dcid & scid & _ & _ & _ & E5 & Hdc & Es & Hsc & -> & ->).
  pose proof (byte_at_is_uint8 _ _ _ Hok E5) as Hud.
  pose proof (byte_at_is_uint8 _ _ _ Hok Es) as Hus.
  destruct (long_bounds packet d s dcid scid Hud Hus Hdc Hsc) as (Hd & E6 & Hcase).
  rewrite E6 in *. pose proof (byte_at_lt _ _ _ Es) as Hlt.
  destruct (reslice_shape _ _ _ _ Hdc) as (Hld & _ & Hed).
  destruct (reslice_shape _ _ _ _ Hsc) as (Hls & _ & _).
  unfold is_uint8 in Hud, Hus.
  eexists _, d, s. split; [reflexivity|].
  cbn [LongHeader.DCIDLength LongHeader.SCIDLength LongHeader.DCID LongHeader.SCID].
  repeat split; try assumption; try reflexivity.
  - lia.
  - destruct Hcase as [(_ & E7 & E8) | (_ & E7 & E8 & _)];
      rewrite E8, E7 in Hls; lia.
  - lia.
  - rewrite Hed. replace (6 + d - 6) with d by lia.
    pose proof (window_inside packet 6 (6 + d)) as W.
    replace (6 + d - 6) with d in W by lia.
    change (Z.to_nat 6) with 6%nat in W. apply W; lia.
Qed.

Lemma X2_long_header_invariants_witness :
  bytes_ok test_long_packet
  /\ exists h,
       parseLongHeader test_processor test_long_packet = Ret (Some h, None)
       /\ LongHeader.DCIDLength h = 8 /\ LongHeader.SCIDLength h = 4
       /\ len (LongHeader.DCID h) = 8 /\ len (LongHeader.SCID h) = 4
       /\ elems (LongHeader.DCID h) = [1; 2; 3; 4; 5; 6; 7; 8].
Proof.
  assert (Hok : bytes_ok test_long_packet)
    by (apply (bool_decide_unpack _); vm_compute; exact I).
  split; [exact Hok|].
  destruct (parseLongHeader test_processor test_long_packet) as [[hp e]|why] eqn:E;
    [|vm_compute in E; discriminate E].
  destruct (X2_long_header_invariants test_processor test_long_packet hp e Hok E)
    as (h & d & s & -> & -> & E5 & Es & Hd & Hs & Hld & Hls & _ & Hel).
  vm_compute in E5. injection E5 as <-.
  vm_compute in Es. injection Es as <-.
  exists h. repeat split; assumption.
Defined.

(** X3.  With a declared destination-CID length of 249 the start
    [6 + 249 + 1] of the source CID wraps to 0: the parse returns, and the
    source CID it returns is the first [s] bytes of the datagram, [s] being
    the source-CID length at offset 255. *)
Theorem X3_dcid_249_source_cid_is_datagram_start p packet s :
  bytes_ok packet ->
  byte_at packet 5 = Some 249 -> byte_at packet 255 = Some s ->
  exists h,
    parseLongHeader p packet = Ret (Some h, None)
    /\ LongHeader.DCIDLength h = 249
    /\ LongHeader.SCIDLength h = s
    /\ elems (LongHeader.SCID h) = take (Z.to_nat s) (elems packet).
Proof.
  intros Hok E5 Es.
  pose proof (byte_at_is_uint8 _ _ _ Hok Es) as Hus. unfold is_uint8 in Hus.
  pose proof (byte_at_lt _ _ _ Es) as Hlt.
  destruct (parseLongHeader_returns p packet Hok) as [h Hh].
  { unfold long_header_parses. rewrite E5.
    change (6 + 249) with 255. rewrite Es. reflexivity. }
  exists h. split; [exact Hh|].
  apply parseLongHeader_spec in Hh
    as (b0 & vb & v & d & s' & dcid & scid & _ & _ & _ & E5' & _ & Es' & Hsc & Eh & _).
  rewrite E5 in E5'. injection E5' as <-.
  change (add8 6 249) with 255 in *. rewrite Es in Es'. injection Es' as <-.
  change (add8 255 1) with 0 in Hsc. rewrite (add8_small 0 s) in Hsc by lia.
  destruct (reslice_shape _ _ _ _ Hsc) as (_ & _ & Hel).
  injection Eh as ->. cbn [LongHeader.DCIDLength LongHeader.SCIDLength LongHeader.SCID].
  repeat split. rewrite Hel.
  replace (0 + s - 0) with s by lia. change (Z.to_nat 0) with 0%nat.
  cbn [drop]. apply take_app_le. unfold len in Hlt. lia.
Qed.

Lemma X3_dcid_249_source_cid_is_datagram_start_witness :
  bytes_ok dcid_249_packet
  /\ byte_at dcid_249_packet 5 = Some 249
  /\ byte_at dcid_249_packet 255 = Some 3
  /\ exists h,
       parseLongHeader test_processor dcid_249_packet = Ret (Some h, None)
       /\ elems (LongHeader.SCID h) = [0xC0; 0x1A; 0x2A].
Proof.
  assert (Hok : bytes_ok dcid_249_packet)
    by (apply (bool_decide_unpack _); vm_compute; exact I).
  assert (E5 : byte_at dcid_249_packet 5 = Some 249) by reflexivity.
  assert (Es : byte_at dcid_249_packet 255 = Some 3) by reflexivity.
  split; [exact Hok|]. split; [exact E5|]. split; [exact Es|].
  destruct (X3_dcid_249_source_cid_is_datagram_start test_processor
              dcid_249_packet 3 Hok E5 Es) as (h & Hh & _ & _ & Hel).
  exists h. split; [exact Hh | exact Hel].
Defined.

(** ** When the short-form parser returns *)

(** X4.  For every expected CID length [L] of type [uint8],
    [short_header_parses] decides the short-form parse: where it holds
    [parseShortHeader] returns a header, with a nil error, whose form is 0
    and whose destination CID has exactly [L] bytes; where it fails (no
    first byte, [L = 255], or a capacity below [1 + L]) the call panics. *)
Theorem X4_parseShortHeader_returns_iff p packet :
  is_uint8 (PacketProcessor.DCIDLength p) ->
  (short_header_parses p packet = true ->
   exists h, parseShortHeader p packet = Ret (Some h, None)
             /\ ShortHeader.HeaderForm h = 0
             /\ len (ShortHeader.DCID h) = PacketProcessor.DCIDLength p)
  /\ (short_header_parses p packet = false -> panics (parseShortHeader p packet)).
Proof.
  unfold is_uint8, short_header_parses. intros HL.
  rewrite parseShortHeader_eq.
  destruct (byte_at packet 0) as [b0|]; [|split; [discriminate | eexists; reflexivity]].
  set (L := PacketProcessor.DCIDLength p) in *.
  split; intros Hp.
  - apply andb_true_iff in Hp as [H254 Hcap].
    apply bool_decide_eq_true in H254, Hcap.
    rewrite (add8_small 1 L) by lia.
    destruct (reslice packet 1 (1 + L)) as [dcid|why] eqn:E.
    + destruct (reslice_shape _ _ _ _ E) as (Hlen & _).
      eexists. split; [reflexivity|]. split; [reflexivity|]. cbn. lia.
    + rewrite reslice_in in E by lia. discriminate E.
  - apply andb_false_iff in Hp.
    rewrite reslice_out; [eexists; reflexivity|].
    destruct Hp as [Hp|Hp]; apply bool_decide_eq_false in Hp.
    + assert (L = 255) as -> by lia. change (add8 1 255) with 0. lia.
    + destruct (Z_le_gt_dec L 254).
      * rewrite add8_small by lia. lia.
      * assert (L = 255) as -> by lia. change (add8 1 255) with 0. lia.
Qed.

Lemma X4_parseShortHeader_returns_iff_witness :
  is_uint8 (PacketProcessor.DCIDLength test_processor)
  /\ short_header_parses test_processor test_short_packet = true
  /\ (exists h, parseShortHeader test_processor test_short_packet = Ret (Some h, None)
                /\ len (ShortHeader.DCID h) = 8)
  /\ is_uint8 (PacketProcessor.DCIDLength (PacketProcessor.mk 255))
  /\ short_header_parses (PacketProcessor.mk 255) cut_short_read = false
  /\ panics (parseShortHeader (PacketProcessor.mk 255) cut_short_read).
Proof.
  assert (HL : is_uint8 (PacketProcessor.DCIDLength test_processor))
    by (unfold is_uint8; cbn; lia).
  assert (HL' : is_uint8 (PacketProcessor.DCIDLength (PacketProcessor.mk 255)))
    by (unfold is_uint8; cbn; lia).
  assert (Hp : short_header_parses test_processor test_short_packet = true)
    by reflexivity.
  assert (Hp' : short_header_parses (PacketProcessor.mk 255) cut_short_read = false)
    by reflexivity.
  split; [exact HL|]. split; [exact Hp|]. split.
  - destruct (proj1 (X4_parseShortHeader_returns_iff test_processor
                       test_short_packet HL) Hp) as (h & Hh & _ & Hlen).
    exists h. split; [exact Hh | exact Hlen].
  - split; [exact HL'|]. split; [exact Hp'|].
    exact (proj2 (X4_parseShortHeader_returns_iff (PacketProcessor.mk 255)
                    cut_short_read HL') Hp').
Defined.

(** ** What [ParsePacket] hands to the accessors *)

(** A result of [ParsePacket] comes from the parser that the first byte
    selects. *)
Lemma ParsePacket_inv p packet v e :
  ParsePacket p packet = Ret (v, e) ->
  exists b0, byte_at packet 0 = Some b0
    /\ ((Z.shiftr b0 7 = 1
         /\ exists hp, parseLongHeader p packet = Ret (hp, e) /\ v = OfLong hp)
        \/ (Z.shiftr b0 7 <> 1
            /\ exists hp, parseShortHeader p packet = Ret (hp, e) /\ v = OfShort hp)).
Proof.
  unfold ParsePacket. intros H.
  apply bind_Ret_inv in H as (b0 & H0 & H). apply index_Ret in H0.
  apply bind_Ret_inv in H as (_ & _ & H).
  exists b0. split; [exact H0|].
  case_bool_decide as Hf.
  - left. split; [exact Hf|].
    apply bind_Ret_inv in H as ([hp e'] & Hr & H). injection H as <- <-.
    exists hp. split; [exact Hr | reflexivity].
  - right. split; [exact Hf|].
    apply bind_Ret_inv in H as ([hp e'] & Hr & H). injection H as <- <-.
    exists hp. split; [exact Hr | reflexivity].
Qed.

Lemma byte_shiftr7 b : is_uint8 b -> Z.shiftr b 7 = if Z.testbit b 7 then 1 else 0.
Proof.
  intros Hb. pose proof (shiftr7_testbit b Hb) as H.
  destruct (Z.testbit b 7).
  - apply bool_decide_eq_true in H. exact H.
  - apply bool_decide_eq_false in H. unfold is_uint8 in Hb.
    rewrite Z.shiftr_div_pow2 in * by lia. change (2 ^ 7) with 128 in *.
    assert (0 <= b / 128 < 2); [|lia].
    split; [apply Z.div_pos; lia | apply Z.div_lt_upper_bound; lia].
Qed.

(** X5.  Every header that [ParsePacket] returns for a datagram of bytes has
    its fields in range: the form is the constant of its variant, the type
    bit below 2, the type-specific bits below 16, the version below [2^32],
    the two CID lengths bytes, and for the short form reserved bits below 4,
    key phase below 2, packet-number length below 4 and a packet number that
    is left 0. *)
Theorem X5_parsed_fields_in_range p packet v e :
  bytes_ok packet ->
  ParsePacket p packet = Ret (v, e) ->
  header_in_range v.
Proof.
  intros Hok H.
  apply ParsePacket_inv in H as (b0 & H0 & [(_ & hp & Hr & ->) | (_ & hp & Hr & ->)]).
  - apply parseLongHeader_spec in Hr
      as (c0 & vb & ver & d & s & dcid & scid & _ & _ & Hv & E5 & Hdc & Es & Hsc & -> & _).
    pose proof (byte_at_is_uint8 _ _ _ Hok E5) as Hud.
    pose proof (byte_at_is_uint8 _ _ _ Hok Es) as Hus.
    cbn. unfold long_fields_in_range. cbn.
    split; [reflexivity|].
    split; [exact (land_low_bits (Z.shiftr c0 4) 1 ltac:(lia))|].
    split; [exact (land_low_bits c0 4 ltac:(lia))|].
    split; [exact (Uint32_range _ _ Hv)|].
    split; assumption.
  - rewrite parseShortHeader_eq, H0 in Hr.
    apply bind_Ret_inv in Hr as (dcid & _ & Hr). injection Hr as <- _.
    cbn. unfold short_fields_in_range. cbn.
    split; [reflexivity|].
    split; [exact (land_low_bits (Z.shiftr b0 3) 2 ltac:(lia))|].
    split; [exact (land_low_bits (Z.shiftr b0 2) 1 ltac:(lia))|].
    split; [exact (land_low_bits b0 2 ltac:(lia)) | reflexivity].
Qed.

Lemma X5_parsed_fields_in_range_witness :
  bytes_ok test_long_packet
  /\ exists v e, ParsePacket test_processor test_long_packet = Ret (v, e)
                 /\ header_in_range v.
Proof.
  assert (Hok : bytes_ok test_long_packet)
    by (apply (bool_decide_unpack _); vm_compute; exact I).
  split; [exact Hok|].
  destruct (ParsePacket test_processor test_long_packet) as [[v e]|why] eqn:E;
    [|vm_compute in E; discriminate E].
  exists v, e. split; [reflexivity|].
  exact (X5_parsed_fields_in_range test_processor test_long_packet v e Hok E).
Defined.

(** X6.  [ParsePacket] never returns the nil interface, a nil header pointer
    or a non-nil error: on whatever it returns, each of the three accessors
    returns a value and a nil error, without a panic. *)
Theorem X6_accessors_total_on_parsed p packet v e :
  ParsePacket p packet = Ret (v, e) ->
  e = None
  /\ exists cid ty form,
       GetCID v = Ret (cid, None)
       /\ GetPacketType v = Ret (ty, None)
       /\ GetHeaderForm v = Ret (form, None).
Proof.
  intros H.
  apply ParsePacket_inv in H as (b0 & H0 & [(_ & hp & Hr & ->) | (_ & hp & Hr & ->)]).
  - apply parseLongHeader_spec in Hr
      as (c0 & vb & ver & d & s & dcid & scid & _ & _ & _ & _ & _ & _ & _ & -> & ->).
    split; [reflexivity|]. eexists _, _, _. repeat split.
  - rewrite parseShortHeader_eq, H0 in Hr.
    apply bind_Ret_inv in Hr as (dcid & _ & Hr). injection Hr as <- <-.
    split; [reflexivity|]. eexists _, _, _. repeat split.
Qed.

Lemma X6_accessors_total_on_parsed_witness :
  exists v, ParsePacket test_processor test_short_packet = Ret (v, None)
    /\ exists cid ty form,
         GetCID v = Ret (cid, None)
         /\ GetPacketType v = Ret (ty, None)
         /\ GetHeaderForm v = Ret (form, None).
Proof.
  destruct (ParsePacket test_processor test_short_packet) as [[v e]|why] eqn:E;
    [|vm_compute in E; discriminate E].
  destruct (X6_accessors_total_on_parsed test_processor test_short_packet v e E)
    as (-> & Hacc).
  exists v. split; [reflexivity | exact Hacc].
Defined.

(** X7.  What the accessors say of a parsed datagram with first byte [b0]:
    the header form is bit 7 of [b0], and the packet type is OneRTT for the
    short form and bit 4 of [b0] (Initial or ZeroRTT) for the long form, so
    the type is OneRTT exactly when bit 7 is clear. *)
Theorem X7_form_and_type_of_parsed p packet b0 v e :
  byte_at packet 0 = Some b0 -> is_uint8 b0 ->
  ParsePacket p packet = Ret (v, e) ->
  GetHeaderForm v = Ret (Z.shiftr b0 7, None)
  /\ GetPacketType v
     = Ret (if Z.testbit b0 7 then Z.land (Z.shiftr b0 4) 0x1 else OneRTT, None)
  /\ (GetPacketType v = Ret (OneRTT, None) <-> Z.testbit b0 7 = false).
Proof.
  intros H0 Hu H. pose proof (byte_shiftr7 b0 Hu) as Hs.
  assert (Hty : forall x, Z.land x 1 <> OneRTT).
  { intros x. unfold OneRTT. destruct (land_1_cases x) as [-> | ->]; discriminate. }
  apply ParsePacket_inv in H as (c0 & H0' & Hcase).
  rewrite H0 in H0'. injection H0' as <-.
  destruct Hcase as [(Hf & hp & Hr & ->) | (Hf & hp & Hr & ->)].
  - apply parseLongHeader_spec in Hr
      as (c0 & vb & ver & d & s & dcid & scid & H0' & _ & _ & _ & _ & _ & _ & -> & _).
    rewrite H0 in H0'. injection H0' as <-.
    destruct (Z.testbit b0 7); [|congruence].
    cbn. rewrite Hf. split; [reflexivity|]. split; [reflexivity|].
    split; [intros E; injection E as E; destruct (Hty _ E) | discriminate].
  - rewrite parseShortHeader_eq, H0 in Hr.
    apply bind_Ret_inv in Hr as (dcid & _ & Hr). injection Hr as <- _.
    destruct (Z.testbit b0 7); [congruence|].
    cbn. rewrite Hs. repeat split.
Qed.

Lemma X7_form_and_type_of_parsed_witness :
  byte_at test_long_packet 0 = Some 0xC0 /\ is_uint8 0xC0
  /\ exists v, ParsePacket test_processor test_long_packet = Ret (v, None)
       /\ GetHeaderForm v = Ret (1, None)
       /\ GetPacketType v = Ret (Initial, None).
Proof.
  assert (H0 : byte_at test_long_packet 0 = Some 0xC0) by reflexivity.
  assert (Hu : is_uint8 0xC0) by (unfold is_uint8; lia).
  split; [exact H0|]. split; [exact Hu|].
  destruct (ParsePacket test_processor test_long_packet) as [[v e]|why] eqn:E;
    [|vm_compute in E; discriminate E].
  destruct (X7_form_and_type_of_parsed test_processor test_long_packet 0xC0 v e
              H0 Hu E) as (Hform & Hty & _).
  assert (e = None) as -> by (vm_compute in E; congruence).
  exists v. split; [reflexivity|]. split; [exact Hform | exact Hty].
Defined.

(** The destination CID of a returned long header, for use below. *)
Lemma long_header_dcid p packet hp e :
  bytes_ok packet ->
  parseLongHeader p packet = Ret (hp, e) ->
  exists h d,
    hp = Some h /\ byte_at packet 5 = Some d
    /\ len (LongHeader.DCID h) = d
    /\ elems (LongHeader.DCID h) = take (Z.to_nat d) (drop 6 (elems packet)).
Proof.
  intros Hok E. apply parseLongHeader_spec in E
    as (b0 & vb & v & d & s & dcid & scid & _ & _ & _ & E5 & Hdc & Es & Hsc & -> & ->).
  pose proof (byte_at_is_uint8 _ _ _ Hok E5) as Hud.
  pose proof (byte_at_is_uint8 _ _ _ Hok Es) as Hus.
  destruct (long_bounds packet d s dcid scid Hud Hus Hdc Hsc) as (Hd & E6 & _).
  rewrite E6 in *. pose proof (byte_at_lt _ _ _ Es) as Hlt.
  destruct (reslice_shape _ _ _ _ Hdc) as (Hld & _ & Hed).
  unfold is_uint8 in Hud.
  eexists _, d. split; [reflexivity|]. cbn [LongHeader.DCID].
  split; [assumption|]. split; [lia|].
  rewrite Hed. replace (6 + d - 6) with d by lia.
  pose proof (window_inside packet 6 (6 + d)) as W.
  replace (6 + d - 6) with d in W by lia.
  change (Z.to_nat 6) with 6%nat in W. apply W; lia.
Qed.

(** X8.  [GetCID] of a parsed datagram of bytes returns datagram bytes: for
    the long form bytes 6 to [5 + d], [d] being byte 5; for the short form a
    CID of [L] bytes which, when the datagram has [1 + L] bytes, are its
    bytes 1 to [L]. *)
Theorem X8_GetCID_of_parsed p packet b0 v e :
  bytes_ok packet -> is_uint8 (PacketProcessor.DCIDLength p) ->
  byte_at packet 0 = Some b0 ->
  ParsePacket p packet = Ret (v, e) ->
  exists cid,
    GetCID v = Ret (cid, None)
    /\ (Z.testbit b0 7 = true ->
        exists d, byte_at packet 5 = Some d /\ len cid = d
                  /\ elems cid = take (Z.to_nat d) (drop 6 (elems packet)))
    /\ (Z.testbit b0 7 = false ->
        len cid = PacketProcessor.DCIDLength p
        /\ (1 + PacketProcessor.DCIDLength p <= len packet ->
            elems cid = take (Z.to_nat (PacketProcessor.DCIDLength p))
                             (drop 1 (elems packet)))).
Proof.
  intros Hok HL H0 H.
  pose proof (byte_at_is_uint8 _ _ _ Hok H0) as Hu.
  pose proof (shiftr7_testbit b0 Hu) as Hbit.
  apply ParsePacket_inv in H as (c0 & H0' & Hcase).
  rewrite H0 in H0'. injection H0' as <-.
  destruct Hcase as [(Hf & hp & Hr & ->) | (Hf & hp & Hr & ->)].
  - rewrite bool_decide_true in Hbit by assumption.
    destruct (long_header_dcid p packet hp e Hok Hr)
      as (h & d & -> & E5 & Hlen & Hel).
    exists (LongHeader.DCID h). split; [reflexivity|]. split.
    + intros _. exists d. repeat split; assumption.
    + intros Hb. congruence.
  - rewrite bool_decide_false in Hbit by assumption.
    rewrite parseShortHeader_eq, H0 in Hr.
    apply bind_Ret_inv in Hr as (dcid & Hdc & Hr). injection Hr as <- _.
    exists dcid. split; [reflexivity|]. split; [intros Hb; congruence|].
    intros _. unfold is_uint8 in HL.
    set (L := PacketProcessor.DCIDLength p) in *.
    pose proof (reslice_Ret _ _ _ _ Hdc) as [Hlo Hhi].
    assert (L <= 254).
    { destruct (Z_le_gt_dec L 254); [assumption|].
      assert (L = 255) as EL by lia. rewrite EL in Hlo.
      change (add8 1 255) with 0 in Hlo. lia. }
    rewrite (add8_small 1 L) in Hdc by lia.
    destruct (reslice_shape _ _ _ _ Hdc) as (Hlen & _ & Hel).
    split; [lia|]. intros Hfit. rewrite Hel.
    pose proof (window_inside packet 1 (1 + L)) as W.
    replace (1 + L - 1) with L in * by lia.
    change (Z.to_nat 1) with 1%nat in *. apply W; lia.
Qed.

Lemma X8_GetCID_of_parsed_witness :
  bytes_ok test_short_packet
  /\ is_uint8 (PacketProcessor.DCIDLength test_processor)
  /\ byte_at test_short_packet 0 = Some 0x40
  /\ exists v cid,
       ParsePacket test_processor test_short_packet = Ret (v, None)
       /\ GetCID v = Ret (cid, None)
       /\ elems cid = [1; 2; 3; 4; 5; 6; 7; 8].
Proof.
  assert (Hok : bytes_ok test_short_packet)
    by (apply (bool_decide_unpack _); vm_compute; exact I).
  assert (HL : is_uint8 (PacketProcessor.DCIDLength test_processor))
    by (unfold is_uint8; cbn; lia).
  assert (H0 : byte_at test_short_packet 0 = Some 0x40) by reflexivity.
  split; [exact Hok|]. split; [exact HL|]. split; [exact H0|].
  destruct (ParsePacket test_processor test_short_packet) as [[v e]|why] eqn:E;
    [|vm_compute in E; discriminate E].
  destruct (X8_GetCID_of_parsed test_processor test_short_packet 0x40 v e
              Hok HL H0 E) as (cid & Hcid & _ & Hshort).
  assert (e = None) as -> by (vm_compute in E; congruence).
  exists v, cid. split; [reflexivity|]. split; [exact Hcid|].
  destruct (Hshort eq_refl) as [_ Hel]. apply Hel. vm_compute. discriminate.
Defined.

(** ** Round trips through the wire image *)

(** X9.  A long-form wire image (bit 7 of the first byte set, the lengths
    and the two CIDs adding up to at most 255 bytes with the seven fixed
    ones) parses back to its parts whatever payload follows and whatever the
    spare capacity holds: [ParsePacket] returns a long header whose CIDs,
    CID lengths, version and type-specific bits are those written, and
    [GetCID] of it is the destination CID. *)
Theorem X9_long_round_trip p b0 b1 b2 b3 b4 dcid scid payload sp :
  is_uint8 b0 -> Z.testbit b0 7 = true ->
  is_uint8 b1 -> is_uint8 b2 -> is_uint8 b3 -> is_uint8 b4 ->
  7 + Z.of_nat (length dcid) + Z.of_nat (length scid) <= 255 ->
  exists h,
    ParsePacket p (mkslice (long_datagram b0 b1 b2 b3 b4 dcid scid payload) sp)
    = Ret (OfLong (Some h), None)
    /\ GetCID (OfLong (Some h)) = Ret (LongHeader.DCID h, None)
    /\ elems (LongHeader.DCID h) = dcid
    /\ elems (LongHeader.SCID h) = scid
    /\ LongHeader.DCIDLength h = Z.of_nat (length dcid)
    /\ LongHeader.SCIDLength h = Z.of_nat (length scid)
    /\ LongHeader.Version h = be32 b1 b2 b3 b4
    /\ LongHeader.TypeSpecific h = Z.land b0 0x0F.
Proof.
  intros H0 Hbit H1 H2 H3 H4 Hsum.
  destruct (parseLongHeader_recovers p b0 b1 b2 b3 b4 dcid scid payload sp
              H1 H2 H3 H4 Hsum) as (h & Hh & Hd & Hdl & Hv & Hs & Hsl).
  fold (long_datagram b0 b1 b2 b3 b4 dcid scid payload) in Hh.
  exists h.
  rewrite (ParsePacket_eq p _ b0) by (reflexivity || assumption).
  rewrite Hbit, Hh.
  apply parseLongHeader_spec in Hh
    as (c0 & vb & v & d & s & dc & sc & E0 & _ & _ & _ & _ & _ & _ & Eh & _).
  change (Some b0 = Some c0) in E0. injection E0 as <-.
  injection Eh as Eh.
  repeat split; try assumption.
  rewrite Eh. reflexivity.
Qed.

Lemma X9_long_round_trip_witness :
  is_uint8 0xC5 /\ Z.testbit 0xC5 7 = true
  /\ 7 + Z.of_nat (length [1; 2; 3]) + Z.of_nat (length [9; 8]) <= 255
  /\ exists h,
       ParsePacket test_processor
         (mkslice (long_datagram 0xC5 0 0 0 1 [1; 2; 3] [9; 8] [0xFF; 0xFE]) [0x77])
       = Ret (OfLong (Some h), None)
       /\ elems (LongHeader.DCID h) = [1; 2; 3]
       /\ elems (LongHeader.SCID h) = [9; 8]
       /\ LongHeader.Version h = 1
       /\ LongHeader.TypeSpecific h = 5.
Proof.
  assert (Hu : forall z, 0 <= z < 256 -> is_uint8 z) by (intros z Hz; exact Hz).
  assert (H0 : is_uint8 0xC5) by (apply Hu; lia).
  assert (Hz : is_uint8 0) by (apply Hu; lia).
  assert (H1 : is_uint8 1) by (apply Hu; lia).
  assert (Hbit : Z.testbit 0xC5 7 = true) by reflexivity.
  assert (Hsum : 7 + Z.of_nat (length [1; 2; 3]) + Z.of_nat (length [9; 8]) <= 255)
    by (cbn; lia).
  split; [exact H0|]. split; [exact Hbit|]. split; [exact Hsum|].
  destruct (X9_long_round_trip test_processor 0xC5 0 0 0 1 [1; 2; 3] [9; 8]
              [0xFF; 0xFE] [0x77] H0 Hbit Hz Hz Hz H1 Hsum)
    as (h & Hh & _ & Hd & Hs & _ & _ & Hv & Hts).
  exists h. repeat split; assumption.
Defined.

(** X10.  A short-form wire image (bit 7 of the first byte clear) parses
    back to its CID when the processor expects the CID's length, whatever
    payload follows: [ParsePacket] returns a short header whose destination
    CID is the one written and whose bit fields are those of the first
    byte. *)
Theorem X10_short_round_trip b0 cid payload sp :
  is_uint8 b0 -> Z.testbit b0 7 = false ->
  Z.of_nat (length cid) <= 254 ->
  exists h,
    ParsePacket (PacketProcessor.mk (Z.of_nat (length cid)))
      (mkslice (short_datagram b0 cid payload) sp)
    = Ret (OfShort (Some h), None)
    /\ GetCID (OfShort (Some h)) = Ret (ShortHeader.DCID h, None)
    /\ elems (ShortHeader.DCID h) = cid
    /\ ShortHeader.ReservedBits h = Z.land (Z.shiftr b0 3) 0x3
    /\ ShortHeader.KeyPhase h = Z.land (Z.shiftr b0 2) 0x1
    /\ ShortHeader.PacketNumberLength h = Z.land b0 0x3.
Proof.
  intros H0 Hbit Hlen.
  set (p := PacketProcessor.mk (Z.of_nat (length cid))).
  set (packet := mkslice (short_datagram b0 cid payload) sp).
  assert (E0 : byte_at packet 0 = Some b0) by reflexivity.
  assert (Hadd : add8 1 (PacketProcessor.DCIDLength p) = 1 + Z.of_nat (length cid))
    by (apply add8_small; cbn; lia).
  rewrite (ParsePacket_eq p packet b0 E0 H0), Hbit.
  rewrite (parseShortHeader_fits p packet b0 E0).
  2:{ rewrite Hadd. unfold cap, packet, short_datagram. cbn [elems spare].
      cbn [app length]. rewrite !length_app. lia. }
  eexists. split; [reflexivity|]. split; [reflexivity|].
  cbn [ShortHeader.DCID ShortHeader.ReservedBits ShortHeader.KeyPhase
       ShortHeader.PacketNumberLength elems].
  repeat split. rewrite Hadd.
  replace (1 + Z.of_nat (length cid) - 1) with (Z.of_nat (length cid)) by lia.
  rewrite Nat2Z.id. unfold packet, short_datagram. cbn [elems spare app drop Z.to_nat Pos.to_nat Pos.iter_op Nat.add].
  rewrite <- app_assoc. apply take_app_length.
Qed.

Lemma X10_short_round_trip_witness :
  is_uint8 0x5D /\ Z.testbit 0x5D 7 = false
  /\ Z.of_nat (length [1; 2; 3; 4]) <= 254
  /\ exists h,
       ParsePacket (PacketProcessor.mk 4)
         (mkslice (short_datagram 0x5D [1; 2; 3; 4] [0xEE; 0xEF]) [0x77])
       = Ret (OfShort (Some h), None)
       /\ elems (ShortHeader.DCID h) = [1; 2; 3; 4]
       /\ ShortHeader.ReservedBits h = 3
       /\ ShortHeader.KeyPhase h = 1
       /\ ShortHeader.PacketNumberLength h = 1.
Proof.
  assert (H0 : is_uint8 0x5D) by (unfold is_uint8; lia).
  assert (Hbit : Z.testbit 0x5D 7 = false) by reflexivity.
  assert (Hlen : Z.of_nat (length [1; 2; 3; 4]) <= 254) by (cbn; lia).
  split; [exact H0|]. split; [exact Hbit|]. split; [exact Hlen|].
  destruct (X10_short_round_trip 0x5D [1; 2; 3; 4] [0xEE; 0xEF] [0x77] H0 Hbit Hlen)
    as (h & Hh & _ & Hd & Hr & Hk & Hn).
  exists h. repeat split; assumption.
Defined.

(** * Further properties of the load balancer *)

(** X11.  [Start] on a stopped balancer whose mutex is free calls
    [ListenPacket] once, for UDP at the configured address.  If that fails,
    [Start] returns the error and the balancer is unchanged; if it succeeds,
    [Start] returns nil, stores the connection and sets the running flag,
    and changes nothing else. *)
Theorem X11_Start_from_stopped
    (PacketConn world : Type)
    (ListenPacket : string -> string -> world -> (option PacketConn * error) * world)
    (b : lb.LoadBalancer PacketConn) (w w' : world)
    (l : option PacketConn) (err : error) :
  lb.RWMutex.held (lb.mu PacketConn b) = false ->
  lb.running PacketConn b = false ->
  ListenPacket "udp"%string (lb.listenAddr PacketConn b) w = ((l, err), w') ->
  lb.Start PacketConn world ListenPacket b w
  = Some (match err with
          | Some e => (Ret (Some e), b, w')
          | None =>
              (Ret None,
               lb.mkLoadBalancer PacketConn
                 (lb.listenAddr PacketConn b) (lb.backends PacketConn b) l
                 (lb.mu PacketConn b) true (lb.packetProcessor PacketConn b),
               w')
          end).
Proof.
  intros Hfree Hrun Hl. destruct (mutex_free _ Hfree) as [Hm Hlock].
  destruct b as [addr backs lis m run pp]. cbn [lb.mu lb.running lb.listenAddr
    lb.backends lb.packetProcessor] in *. subst run.
  unfold lb.Start, lb.locked. cbn [lb.mu]. rewrite Hlock. cbn.
  rewrite Hl. destruct err as [e|]; cbn; rewrite <- Hm; reflexivity.
Qed.

Lemma X11_Start_from_stopped_witness :
  lb.RWMutex.held (lb.mu unit stopped_balancer) = false
  /\ lb.running unit stopped_balancer = false
  /\ lb.Start unit unit accept_listen stopped_balancer tt
     = Some (Ret None, running_balancer, tt)
  /\ lb.Start unit unit refuse_listen stopped_balancer tt
     = Some (Ret (Some "listen refused"%string), stopped_balancer, tt).
Proof.
  assert (Hfree : lb.RWMutex.held (lb.mu unit stopped_balancer) = false)
    by reflexivity.
  assert (Hrun : lb.running unit stopped_balancer = false) by reflexivity.
  split; [exact Hfree|]. split; [exact Hrun|]. split.
  - exact (X11_Start_from_stopped unit unit accept_listen stopped_balancer tt tt
             (Some tt) None Hfree Hrun eq_refl).
  - exact (X11_Start_from_stopped unit unit refuse_listen stopped_balancer tt tt
             None (Some "listen refused"%string) Hfree Hrun eq_refl).
Defined.

(** X12.  [Shutdown] on a running balancer whose mutex is free closes the
    stored connection once.  If closing fails, [Shutdown] returns the error
    and the balancer stays as it was, still running; if it succeeds,
    [Shutdown] returns nil and clears the running flag only: the closed
    connection stays in [listener]. *)
Theorem X12_Shutdown_from_running
    (PacketConn world : Type)
    (Close : PacketConn -> world -> error * world)
    (b : lb.LoadBalancer PacketConn) (w w' : world)
    (c : PacketConn) (err : error) :
  lb.RWMutex.held (lb.mu PacketConn b) = false ->
  lb.running PacketConn b = true ->
  lb.listener PacketConn b = Some c ->
  Close c w = (err, w') ->
  lb.Shutdown PacketConn world Close b w
  = Some (match err with
          | Some e => (Ret (Some e), b, w')
          | None =>
              (Ret None,
               lb.mkLoadBalancer PacketConn
                 (lb.listenAddr PacketConn b) (lb.backends PacketConn b) (Some c)
                 (lb.mu PacketConn b) false (lb.packetProcessor PacketConn b),
               w')
          end).
Proof.
  intros Hfree Hrun Hlis Hc. destruct (mutex_free _ Hfree) as [Hm Hlock].
  destruct b as [addr backs lis m run pp]. cbn [lb.mu lb.running lb.listenAddr
    lb.backends lb.packetProcessor lb.listener] in *. subst run lis.
  unfold lb.Shutdown, lb.locked. cbn [lb.mu]. rewrite Hlock. cbn.
  rewrite Hc. destruct err as [e|]; cbn; rewrite <- Hm; reflexivity.
Qed.

Lemma X12_Shutdown_from_running_witness :
  lb.RWMutex.held (lb.mu unit running_balancer) = false
  /\ lb.running unit running_balancer = true
  /\ lb.listener unit running_balancer = Some tt
  /\ lb.Shutdown unit unit close_fails running_balancer tt
     = Some (Ret (Some "close failed"%string), running_balancer, tt)
  /\ (exists b', lb.Shutdown unit unit close_ok running_balancer tt
                 = Some (Ret None, b', tt)
                 /\ lb.running unit b' = false
                 /\ lb.listener unit b' = Some tt).
Proof.
  assert (Hfree : lb.RWMutex.held (lb.mu unit running_balancer) = false)
    by reflexivity.
  assert (Hrun : lb.running unit running_balancer = true) by reflexivity.
  assert (Hlis : lb.listener unit running_balancer = Some tt) by reflexivity.
  split; [exact Hfree|]. split; [exact Hrun|]. split; [exact Hlis|]. split.
  - exact (X12_Shutdown_from_running unit unit close_fails running_balancer tt tt
             tt (Some "close failed"%string) Hfree Hrun Hlis eq_refl).
  - eexists. split.
    + exact (X12_Shutdown_from_running unit unit close_ok running_balancer tt tt
               tt None Hfree Hrun Hlis eq_refl).
    + split; reflexivity.
Defined.

(** X13.  [Start] and [Shutdown] wait exactly when the mutex is held.  When
    they go through, on every path, they hand the mutex back as they found
    it, never panic in [Unlock], and leave the address, the backends and the
    packet processor untouched. *)
Theorem X13_mutex_and_configuration_kept
    (PacketConn world : Type)
    (ListenPacket : string -> string -> world -> (option PacketConn * error) * world)
    (Close : PacketConn -> world -> error * world)
    (b : lb.LoadBalancer PacketConn) (w : world) :
  (lb.Start PacketConn world ListenPacket b w = None
   <-> lb.RWMutex.held (lb.mu PacketConn b) = true)
  /\ (lb.Shutdown PacketConn world Close b w = None
      <-> lb.RWMutex.held (lb.mu PacketConn b) = true)
  /\ (forall r b' w',
        lb.Start PacketConn world ListenPacket b w = Some (r, b', w')
        \/ lb.Shutdown PacketConn world Close b w = Some (r, b', w') ->
        lb.mu PacketConn b' = lb.mu PacketConn b
        /\ lb.listenAddr PacketConn b' = lb.listenAddr PacketConn b
        /\ lb.backends PacketConn b' = lb.backends PacketConn b
        /\ lb.packetProcessor PacketConn b' = lb.packetProcessor PacketConn b
        /\ r <> Panic UnlockOfUnlocked).
Proof.
  destruct b as [addr backs lis [wr rd] run pp].
  unfold lb.Start, lb.Shutdown, lb.locked, lb.RWMutex.Lock, lb.RWMutex.held.
  cbn [lb.mu lb.RWMutex.writer lb.RWMutex.readers lb.listenAddr lb.backends
       lb.packetProcessor].
  destruct wr; cbn [orb].
  { split; [tauto|]. split; [tauto|]. intros r b' w' [H|H]; discriminate H. }
  destruct (Nat.eqb rd 0) eqn:Hrd; cbn [negb].
  2:{ split; [tauto|]. split; [tauto|]. intros r b' w' [H|H]; discriminate H. }
  apply Nat.eqb_eq in Hrd. subst rd.
  split; [|split].
  - split; [|discriminate]. cbn. destruct run; cbn; [discriminate|].
    destruct (ListenPacket "udp"%string addr w) as [[l [e|]] w1]; discriminate.
  - split; [|discriminate]. cbn. destruct run; cbn; [|discriminate].
    destruct lis as [c|]; cbn; [|discriminate].
    destruct (Close c w) as [[e|] w1]; discriminate.
  - intros r b' w' [H|H]; cbn in H.
    + destruct run; cbn in H.
      * injection H as <- <- <-. cbn. repeat split. discriminate.
      * destruct (ListenPacket "udp"%string addr w) as [[l [e|]] w1]; cbn in H;
          injection H as <- <- <-; cbn; repeat split; discriminate.
    + destruct run; cbn in H.
      * destruct lis as [c|]; cbn in H.
        -- destruct (Close c w) as [[e|] w1]; cbn in H;
             injection H as <- <- <-; cbn; repeat split; discriminate.
        -- injection H as <- <- <-. cbn. repeat split. discriminate.
      * injection H as <- <- <-. cbn. repeat split. discriminate.
Qed.

(** X14.  If [ListenPacket] never returns a nil connection with a nil
    error, "a running balancer has a listener" is an invariant: it holds of
    every balancer that [InitLoadBalancer] makes, [Start] and [Shutdown]
    keep it, and under it [Shutdown] never panics. *)
Theorem X14_listener_ready_invariant
    (PacketConn world : Type)
    (ListenPacket : string -> string -> world -> (option PacketConn * error) * world)
    (Close : PacketConn -> world -> error * world) :
  listen_contract ListenPacket ->
  (forall addr backends b,
     lb.InitLoadBalancer PacketConn addr backends = (Some b, None) ->
     listener_ready b)
  /\ (forall b w r b' w',
        listener_ready b ->
        lb.Start PacketConn world ListenPacket b w = Some (r, b', w') ->
        listener_ready b')
  /\ (forall b w r b' w',
        listener_ready b ->
        lb.Shutdown PacketConn world Close b w = Some (r, b', w') ->
        listener_ready b' /\ exists err, r = Ret err).
Proof.
  intros Hcontract. unfold listener_ready. split; [|split].
  - intros addr backends b H. injection H as <-. cbn. discriminate.
  - intros [addr backs lis [wr rd] run pp] w r b' w' Hinv H.
    unfold lb.Start, lb.locked, lb.RWMutex.Lock in H. cbn [lb.mu] in H.
    destruct (lb.RWMutex.held _); [discriminate|]. cbn in H, Hinv.
    destruct run; cbn in H.
    + injection H as <- <- <-. cbn. exact Hinv.
    + destruct (ListenPacket "udp"%string addr w) as [[l [e|]] w1] eqn:Hl;
        cbn in H; injection H as <- <- <-; cbn; [exact Hinv|].
      intros _. exact (Hcontract _ _ _ _ _ Hl).
  - intros [addr backs lis [wr rd] run pp] w r b' w' Hinv H.
    unfold lb.Shutdown, lb.locked, lb.RWMutex.Lock in H. cbn [lb.mu] in H.
    destruct (lb.RWMutex.held _); [discriminate|]. cbn in H, Hinv.
    destruct run; cbn in H.
    + destruct lis as [c|]; [|destruct (Hinv eq_refl eq_refl)]. cbn in H.
      destruct (Close c w) as [[e|] w1]; cbn in H; injection H as <- <- <-; cbn.
      * split; [intros _; discriminate | eexists; reflexivity].
      * split; [discriminate | eexists; reflexivity].
    + injection H as <- <- <-. cbn. split; [discriminate | eexists; reflexivity].
Qed.

Lemma accept_listen_contract : listen_contract accept_listen.
Proof.
  intros network addr w l w' H. unfold accept_listen in H.
  injection H as <- _. discriminate.
Defined.

Lemma X14_listener_ready_invariant_witness :
  listen_contract accept_listen
  /\ listener_ready stopped_balancer
  /\ listener_ready running_balancer.
Proof.
  split; [exact accept_listen_contract|].
  destruct (X14_listener_ready_invariant unit unit accept_listen close_ok
              accept_listen_contract) as (Hinit & Hstart & _).
  assert (Hs : listener_ready stopped_balancer)
    by exact (Hinit ":8080"%string ["backend1"; "backend2"; "backend3"]%string
                stopped_balancer eq_refl).
  split; [exact Hs|].
  exact (Hstart stopped_balancer tt (Ret None) running_balancer tt Hs eq_refl).
Defined.

(** X15.  The life cycle, with the mutex free: after a [Start] that opened
    the listener a second [Start] returns nil without listening again; a
    [Shutdown] that closes it then returns nil, and a second [Shutdown]
    returns nil without closing again.  The balancer ends as it began,
    stopped, except that [listener] still holds the closed connection. *)
Theorem X15_life_cycle
    (PacketConn world : Type)
    (ListenPacket : string -> string -> world -> (option PacketConn * error) * world)
    (Close : PacketConn -> world -> error * world)
    (b : lb.LoadBalancer PacketConn) (w w1 w2 : world) (c : PacketConn) :
  lb.RWMutex.held (lb.mu PacketConn b) = false ->
  lb.running PacketConn b = false ->
  ListenPacket "udp"%string (lb.listenAddr PacketConn b) w = ((Some c, None), w1) ->
  Close c w1 = (None, w2) ->
  exists b1,
    lb.Start PacketConn world ListenPacket b w = Some (Ret None, b1, w1)
    /\ lb.Start PacketConn world ListenPacket b1 w1 = Some (Ret None, b1, w1)
    /\ lb.Shutdown PacketConn world Close b1 w1
       = Some (Ret None, lb.set_listener PacketConn (Some c) b, w2)
    /\ lb.Shutdown PacketConn world Close
         (lb.set_listener PacketConn (Some c) b) w2
       = Some (Ret None, lb.set_listener PacketConn (Some c) b, w2).
Proof.
  intros Hfree Hrun Hl Hc. destruct (mutex_free _ Hfree) as [Hm Hlock].
  destruct b as [addr backs lis m run pp].
  cbn [lb.mu lb.running lb.listenAddr] in *. subst run.
  exists (lb.mkLoadBalancer PacketConn addr backs (Some c) m true pp).
  split; [|split; [|split]].
  - unfold lb.Start, lb.locked. cbn [lb.mu]. rewrite Hlock. cbn.
    rewrite Hl. cbn. rewrite <- Hm. reflexivity.
  - unfold lb.Start, lb.locked. cbn [lb.mu]. rewrite Hlock. cbn.
    rewrite <- Hm. reflexivity.
  - unfold lb.Shutdown, lb.locked. cbn [lb.mu]. rewrite Hlock. cbn.
    rewrite Hc. cbn. rewrite <- Hm. reflexivity.
  - unfold lb.Shutdown, lb.locked.
    cbn [lb.mu lb.set_listener lb.listenAddr lb.backends lb.running
         lb.packetProcessor lb.listener].
    rewrite Hlock. cbn. rewrite <- Hm. reflexivity.
Qed.

Lemma X15_life_cycle_witness :
  lb.RWMutex.held (lb.mu unit stopped_balancer) = false
  /\ lb.running unit stopped_balancer = false
  /\ exists b1,
       lb.Start unit unit accept_listen stopped_balancer tt = Some (Ret None, b1, tt)
       /\ lb.Start unit unit accept_listen b1 tt = Some (Ret None, b1, tt)
       /\ lb.Shutdown unit unit close_ok b1 tt
          = Some (Ret None, lb.set_listener unit (Some tt) stopped_balancer, tt).
Proof.
  assert (Hfree : lb.RWMutex.held (lb.mu unit stopped_balancer) = false)
    by reflexivity.
  assert (Hrun : lb.running unit stopped_balancer = false) by reflexivity.
  split; [exact Hfree|]. split; [exact Hrun|].
  destruct (X15_life_cycle unit unit accept_listen close_ok stopped_balancer
              tt tt tt tt Hfree Hrun eq_refl eq_refl) as (b1 & H1 & H2 & H3 & _).
  exists b1. split; [exact H1|]. split; [exact H2 | exact H3].
Defined.

(** * Properties of [ReadPacket] *)

(** X16.  [ReadPacket] takes no lock and does not look at the running flag.
    Without a listener it panics on the nil interface.  With one it reads
    into a fresh 1500-byte buffer: an error of [ReadFrom] comes back with a
    nil packet and a nil address; otherwise the packet is the first [n]
    cells of the buffer, with the buffer's capacity, and a count outside
    [0 .. cap] panics on the slice bounds. *)
Theorem X16_ReadPacket_outcomes
    (PacketConn Addr world : Type)
    (ReadFrom : PacketConn -> slice -> world -> (slice * Z * option Addr * error) * world)
    (b : lb.LoadBalancer PacketConn) (w : world) :
  (lb.listener PacketConn b = None ->
   ReadPacket PacketConn Addr world ReadFrom b w = (Panic NilDereference, w))
  /\ (forall c buffer n addr err w',
        lb.listener PacketConn b = Some c ->
        ReadFrom c (make_bytes 1500) w = ((buffer, n, addr, err), w') ->
        (forall e, err = Some e ->
           ReadPacket PacketConn Addr world ReadFrom b w
           = (Ret (nil_slice, None, Some e), w'))
        /\ (err = None -> 0 <= n <= cap buffer ->
            exists packet,
              ReadPacket PacketConn Addr world ReadFrom b w
              = (Ret (packet, addr, None), w')
              /\ len packet = n /\ cap packet = cap buffer
              /\ elems packet = take (Z.to_nat n) (elems buffer ++ spare buffer))
        /\ (err = None -> ~ (0 <= n <= cap buffer) ->
            ReadPacket PacketConn Addr world ReadFrom b w
            = (Panic SliceBoundsOutOfRange, w'))).
Proof.
  unfold ReadPacket. split.
  - intros ->. reflexivity.
  - intros c buffer n addr err w' -> ->. split; [|split].
    + intros e ->. reflexivity.
    + intros -> Hn.
      destruct (reslice buffer 0 n) as [packet|why] eqn:E.
      * destruct (reslice_shape _ _ _ _ E) as (Hlen & Hcap & Hel).
        exists packet. split; [reflexivity|].
        replace (n - 0) with n in * by lia. change (Z.to_nat 0) with 0%nat in Hel.
        repeat split; [lia | lia | exact Hel].
      * rewrite reslice_in in E by lia. discriminate E.
    + intros -> Hn. rewrite reslice_out by lia. reflexivity.
Qed.

Lemma deliver_contract data : read_contract (deliver data).
Proof.
  intros c buffer w buffer' n addr err w' H. unfold deliver in H.
  injection H as <- _ _ _ _. unfold len, cap. cbn [elems spare].
  rewrite !length_app, length_take, length_app, length_drop. lia.
Defined.

Lemma X16_ReadPacket_outcomes_witness :
  lb.listener unit stopped_balancer = None
  /\ ReadPacket unit unit unit (deliver [0x40; 0x01; 0x02; 0x03; 0x04])
       stopped_balancer tt = (Panic NilDereference, tt)
  /\ lb.listener unit running_balancer = Some tt
  /\ exists packet,
       ReadPacket unit unit unit (deliver [0x40; 0x01; 0x02; 0x03; 0x04])
         running_balancer tt = (Ret (packet, Some tt, None), tt)
       /\ len packet = 5 /\ cap packet = 1500.
Proof.
  assert (Hn : lb.listener unit stopped_balancer = None) by reflexivity.
  assert (Hl : lb.listener unit running_balancer = Some tt) by reflexivity.
  split; [exact Hn|]. split.
  - exact (proj1 (X16_ReadPacket_outcomes unit unit unit
                    (deliver [0x40; 0x01; 0x02; 0x03; 0x04]) stopped_balancer tt) Hn).
  - split; [exact Hl|].
    destruct (proj2 (X16_ReadPacket_outcomes unit unit unit
                       (deliver [0x40; 0x01; 0x02; 0x03; 0x04]) running_balancer tt)
                tt _ _ _ _ _ Hl eq_refl) as (_ & Hok & _).
    destruct (Hok eq_refl) as (packet & Hp & Hlen & Hcap & _).
    { vm_compute. split; discriminate. }
    exists packet. split; [exact Hp|]. split; [exact Hlen | exact Hcap].
Defined.

Lemma reslice_from_start s n r :
  reslice s 0 n = Ret r -> elems r ++ spare r = elems s ++ spare s.
Proof.
  intros H. pose proof (reslice_Ret _ _ _ _ H) as [Hlo Hhi].
  rewrite reslice_in in H by assumption. injection H as <-. cbn [elems spare].
  replace (n - 0) with n by lia. change (Z.to_nat 0) with 0%nat. cbn [drop].
  apply take_drop.
Qed.

(** * Datagrams that are cut short *)

(** A window that starts inside the datagram and ends beyond it: the
    datagram's bytes from the start on, then cells of the spare capacity. *)
Lemma take_drop_past (dg sp : list Z) (a n : nat) :
  (a <= length dg)%nat -> (length dg <= a + n)%nat ->
  take n (drop a (dg ++ sp)) = drop a dg ++ take (a + n - length dg) sp.
Proof.
  intros Ha Hn. rewrite drop_app_le by assumption.
  rewrite take_app, length_drop.
  rewrite take_ge by (rewrite length_drop; lia).
  f_equal. f_equal. lia.
Qed.

(** With room in the backing array for the seven fixed bytes and both CIDs,
    the long-form parser returns, and the source CID is the [s] cells of the
    backing array from offset [7 + d] on, whether they arrived or not. *)
Lemma parseLongHeader_room_bytes p packet d s :
  bytes_ok packet ->
  byte_at packet 5 = Some d -> byte_at packet (6 + d) = Some s ->
  7 + d + s <= cap packet -> 7 + d + s <= 255 ->
  exists h, parseLongHeader p packet = Ret (Some h, None)
    /\ LongHeader.DCIDLength h = d
    /\ elems (LongHeader.DCID h) = take (Z.to_nat d) (drop 6 (elems packet))
    /\ LongHeader.SCIDLength h = s
    /\ len (LongHeader.SCID h) = s
    /\ elems (LongHeader.SCID h)
       = take (Z.to_nat s) (drop (Z.to_nat (7 + d)) (elems packet ++ spare packet)).
Proof.
  intros Hok H5 Hs Hcap Hsum.
  pose proof (byte_at_is_uint8 _ _ _ Hok H5) as Hd.
  pose proof (byte_at_is_uint8 _ _ _ Hok Hs) as Hsu.
  unfold is_uint8 in Hd, Hsu.
  destruct (parseLongHeader_room p packet d s Hok H5 Hs Hcap Hsum)
    as (h & Hh & Hdl & Hde & Hsl & Hlen).
  exists h. repeat (split; [assumption|]).
  pose proof Hh as Hspec.
  apply parseLongHeader_spec in Hspec
    as (b0 & vb & v & d' & s' & dcid & scid & _ & _ & _ & H5' & _ & Hs' & Hscid & Eh & _).
  rewrite H5 in H5'. injection H5' as <-.
  rewrite (add8_small 6 d) in Hs', Hscid by lia.
  rewrite Hs in Hs'. injection Hs' as <-.
  rewrite (add8_small (6 + d) 1) in Hscid by lia.
  rewrite (add8_small (6 + d + 1) s) in Hscid by lia.
  injection Eh as ->. cbn [LongHeader.SCID].
  destruct (reslice_shape _ _ _ _ Hscid) as (_ & _ & Hel).
  rewrite Hel. f_equal; [lia|]. f_equal. lia.
Qed.

(** The same for the short form: the CID is the [L] cells after byte 0. *)
Lemma parseShortHeader_room_bytes p packet b0 :
  byte_at packet 0 = Some b0 ->
  0 <= PacketProcessor.DCIDLength p <= 254 ->
  1 + PacketProcessor.DCIDLength p <= cap packet ->
  exists dcid,
    parseShortHeader p packet
    = Ret (Some (ShortHeader.mk 0 (Z.land (Z.shiftr b0 3) 0x3)
                   (Z.land (Z.shiftr b0 2) 0x1) (Z.land b0 0x3) dcid 0), None)
    /\ len dcid = PacketProcessor.DCIDLength p
    /\ elems dcid = take (Z.to_nat (PacketProcessor.DCIDLength p))
                         (drop 1 (elems packet ++ spare packet)).
Proof.
  intros H0 HL Hcap.
  assert (Hadd : add8 1 (PacketProcessor.DCIDLength p)
                 = 1 + PacketProcessor.DCIDLength p) by (apply add8_small; lia).
  rewrite (parseShortHeader_fits p packet b0 H0) by (rewrite Hadd; lia).
  eexists. split; [reflexivity|]. rewrite Hadd.
  replace (1 + PacketProcessor.DCIDLength p - 1)
    with (PacketProcessor.DCIDLength p) by lia.
  change (Z.to_nat 1) with 1%nat. split; [|reflexivity].
  unfold len. cbn [elems]. rewrite length_take, length_drop.
  unfold cap in Hcap. lia.
Qed.

(** A datagram that ends before its source-CID length byte stops the
    long-form parser in one of the two bounds checks. *)
Lemma parseLongHeader_cut_bounds p packet :
  bytes_ok packet -> cut_before_scid packet = true ->
  exists why, parseLongHeader p packet = Panic why
    /\ (why = IndexOutOfRange \/ why = SliceBoundsOutOfRange).
Proof.
  intros Hok Hcut.
  destruct (parseLongHeader_cut p packet Hok Hcut) as [why Hwhy].
  exists why. split; [exact Hwhy|].
  pose proof (parseLongHeader_outcome p packet) as Ho.
  rewrite Hwhy in Ho. exact Ho.
Qed.

(** C2 (amended).  [parseLongHeader] never returns an error, so there is no
    Truncated result.  A datagram that ends before its source-CID length byte
    (fewer than six bytes, or fewer than seven plus the declared
    destination-CID length [d]) makes it stop in a bounds-check panic: index
    out of range or slice bounds out of range.  When only bytes of the source
    CID, of declared length [s], are missing, the capacity decides: below
    [7 + d + s] the call panics on the slice bounds; otherwise it returns a
    header whose source CID has [s] bytes, namely the cells of the backing
    array from offset [7 + d] on: the bytes of the datagram that did arrive,
    followed by the first [7 + d + s - len] cells beyond the datagram's
    end. *)
Theorem C2_truncated_long_header p packet :
  bytes_ok packet ->
  ~ fails_with_error (parseLongHeader p packet)
  /\ (cut_before_scid packet = true ->
      exists why, parseLongHeader p packet = Panic why
        /\ (why = IndexOutOfRange \/ why = SliceBoundsOutOfRange))
  /\ (forall d s,
        byte_at packet 5 = Some d -> byte_at packet (6 + d) = Some s ->
        len packet < 7 + d + s -> 7 + d + s <= 255 ->
        (cap packet < 7 + d + s ->
         parseLongHeader p packet = Panic SliceBoundsOutOfRange)
        /\ (7 + d + s <= cap packet ->
            exists h, parseLongHeader p packet = Ret (Some h, None)
              /\ LongHeader.SCIDLength h = s
              /\ len (LongHeader.SCID h) = s
              /\ elems (LongHeader.SCID h)
                 = take (Z.to_nat s)
                        (drop (Z.to_nat (7 + d)) (elems packet ++ spare packet))
              /\ elems (LongHeader.SCID h)
                 = drop (Z.to_nat (7 + d)) (elems packet)
                   ++ take (Z.to_nat (7 + d + s - len packet)) (spare packet))).
Proof.
  intros Hok. split; [|split].
  - apply no_error_of_outcome, parseLongHeader_outcome.
  - intros Hcut. apply parseLongHeader_cut_bounds; assumption.
  - intros d s H5 Hs Hlen Hsum. split; intros Hcap.
    + apply (parseLongHeader_no_room p packet d s); assumption.
    + destruct (parseLongHeader_room_bytes p packet d s Hok H5 Hs Hcap Hsum)
        as (h & Hh & _ & _ & Hsl & Hl & Hel).
      exists h. repeat (split; [assumption|]).
      rewrite Hel.
      pose proof (byte_at_is_uint8 _ _ _ Hok H5) as Hd.
      pose proof (byte_at_is_uint8 _ _ _ Hok Hs) as Hsu.
      unfold is_uint8 in Hd, Hsu.
      apply byte_at_lt in Hs. unfold len in Hs, Hlen.
      rewrite take_drop_past by lia.
      f_equal. f_equal. unfold len. lia.
Qed.

(** The amended C2 at three datagrams: the lone first byte, which panics;
    the nine-byte literal that lacks two of its four source-CID bytes, which
    panics on the slice bounds; and the same nine bytes in a read buffer,
    where the source CID is the two that arrived and two cells of the
    buffer. *)
Lemma C2_truncated_long_header_witness :
  (bytes_ok one_byte_long_packet
   /\ cut_before_scid one_byte_long_packet = true
   /\ ~ fails_with_error (parseLongHeader test_processor one_byte_long_packet)
   /\ exists why,
        parseLongHeader test_processor one_byte_long_packet = Panic why
        /\ (why = IndexOutOfRange \/ why = SliceBoundsOutOfRange))
  /\ (bytes_ok cut_scid_packet
      /\ byte_at cut_scid_packet 5 = Some 0
      /\ byte_at cut_scid_packet (6 + 0) = Some 4
      /\ len cut_scid_packet < 7 + 0 + 4
      /\ cap cut_scid_packet < 7 + 0 + 4
      /\ parseLongHeader test_processor cut_scid_packet
         = Panic SliceBoundsOutOfRange)
  /\ (bytes_ok cut_scid_read
      /\ byte_at cut_scid_read 5 = Some 0
      /\ byte_at cut_scid_read (6 + 0) = Some 4
      /\ len cut_scid_read < 7 + 0 + 4
      /\ 7 + 0 + 4 <= cap cut_scid_read
      /\ exists h,
           parseLongHeader test_processor cut_scid_read = Ret (Some h, None)
           /\ LongHeader.SCIDLength h = 4
           /\ elems (LongHeader.SCID h) = [0xAA; 0xBB; 0; 0]).
Proof.
  assert (Hok1 : bytes_ok one_byte_long_packet)
    by (apply (bool_decide_unpack _); vm_compute; exact I).
  assert (Hok2 : bytes_ok cut_scid_packet)
    by (apply (bool_decide_unpack _); vm_compute; exact I).
  assert (Hok3 : bytes_ok cut_scid_read)
    by (apply (bool_decide_unpack _); vm_compute; exact I).
  assert (Hcut : cut_before_scid one_byte_long_packet = true) by reflexivity.
  assert (Hlen2 : len cut_scid_packet < 7 + 0 + 4) by reflexivity.
  assert (Hcap2 : cap cut_scid_packet < 7 + 0 + 4) by reflexivity.
  assert (Hlen3 : len cut_scid_read < 7 + 0 + 4) by reflexivity.
  assert (Hcap3 : 7 + 0 + 4 <= cap cut_scid_read) by (vm_compute; discriminate).
  assert (Hsum : 7 + 0 + 4 <= 255) by lia.
  split; [|split].
  - destruct (C2_truncated_long_header test_processor one_byte_long_packet Hok1)
      as (Hne & Hp & _).
    split; [exact Hok1|]. split; [exact Hcut|]. split; [exact Hne | exact (Hp Hcut)].
  - destruct (C2_truncated_long_header test_processor cut_scid_packet Hok2)
      as (_ & _ & Hs).
    repeat (split; [first [assumption | reflexivity]|]).
    exact (proj1 (Hs 0 4 eq_refl eq_refl Hlen2 Hsum) Hcap2).
  - destruct (C2_truncated_long_header test_processor cut_scid_read Hok3)
      as (_ & _ & Hs).
    repeat (split; [first [assumption | reflexivity]|]).
    destruct (proj2 (Hs 0 4 eq_refl eq_refl Hlen3 Hsum) Hcap3)
      as (h & Hh & Hsl & _ & _ & Hel).
    exists h. split; [exact Hh|]. split; [exact Hsl|].
    rewrite Hel. reflexivity.
Defined.

(** * What [ParsePacket] returns *)

(** Whatever [ParsePacket] returns is a non-nil header with a nil error. *)
Lemma ParsePacket_header_outcome p packet :
  header_or_bounds_panic (ParsePacket p packet).
Proof.
  pose proof (ParsePacket_outcome p packet) as Ho.
  unfold header_or_bounds_panic.
  destruct (ParsePacket p packet) as [[v e]|why] eqn:E; [|exact Ho].
  cbn in Ho. subst e. split; [reflexivity|].
  apply ParsePacket_inv in E
    as (b0 & _ & [(_ & hp & Hr & ->) | (_ & hp & Hr & ->)]).
  - apply parseLongHeader_spec in Hr
      as (? & ? & ? & ? & ? & ? & ? & _ & _ & _ & _ & _ & _ & _ & -> & _).
    left. eexists. reflexivity.
  - rewrite parseShortHeader_eq in Hr.
    destruct (byte_at packet 0); [|discriminate Hr].
    apply bind_Ret_inv in Hr as (dcid & _ & Hr). injection Hr as <-.
    right. eexists. reflexivity.
Qed.

(** C7 (amended).  [ParsePacket] never returns an error and its assertion
    never fails: it ends with a non-nil header of one of the two forms and a
    nil error, or in one of the two bounds-check panics.  Whenever the
    datagram holds its complete header it returns: with bit 7 of byte 0 set,
    a long header whose CIDs are the [d] bytes from offset 6 and the [s]
    bytes from offset [7 + d] of the datagram; with bit 7 clear, a short
    header whose CID is the [L] bytes after byte 0. *)
Theorem C7_ParsePacket_outcomes p packet :
  header_or_bounds_panic (ParsePacket p packet)
  /\ ~ fails_with_error (ParsePacket p packet)
  /\ (bytes_ok packet -> complete_header p packet = true ->
      exists b0, byte_at packet 0 = Some b0
        /\ (Z.testbit b0 7 = true ->
            exists h d s,
              ParsePacket p packet = Ret (OfLong (Some h), None)
              /\ byte_at packet 5 = Some d /\ byte_at packet (6 + d) = Some s
              /\ LongHeader.DCIDLength h = d /\ LongHeader.SCIDLength h = s
              /\ elems (LongHeader.DCID h)
                 = take (Z.to_nat d) (drop 6 (elems packet))
              /\ elems (LongHeader.SCID h)
                 = take (Z.to_nat s) (drop (Z.to_nat (7 + d)) (elems packet)))
        /\ (Z.testbit b0 7 = false ->
            exists h,
              ParsePacket p packet = Ret (OfShort (Some h), None)
              /\ elems (ShortHeader.DCID h)
                 = take (Z.to_nat (PacketProcessor.DCIDLength p))
                        (drop 1 (elems packet)))).
Proof.
  split; [apply ParsePacket_header_outcome|].
  split; [apply no_error_of_outcome, ParsePacket_outcome|].
  intros Hok Hc. unfold complete_header in Hc.
  destruct (byte_at packet 0) as [b0|] eqn:H0; [|discriminate].
  exists b0. split; [reflexivity|].
  rewrite (ParsePacket_eq p packet b0 H0 (byte_at_is_uint8 _ _ _ Hok H0)).
  destruct (Z.testbit b0 7); (split; [|]); try discriminate.
  - intros _.
    destruct (byte_at packet 5) as [d|] eqn:H5; [|discriminate].
    destruct (byte_at packet (6 + d)) as [s|] eqn:H6; [|discriminate].
    apply andb_true_iff in Hc as [Hl Hs].
    apply bool_decide_eq_true in Hl, Hs.
    destruct (parseLongHeader_complete p packet d s Hok H5 H6 Hl Hs)
      as (h & -> & Hdl & Hde & Hsl & Hse & _).
    exists h, d, s. repeat (split; [first [assumption | reflexivity]|]).
    exact Hse.
  - intros _.
    apply andb_true_iff in Hc as [Hl HL].
    apply bool_decide_eq_true in Hl, HL.
    pose proof (len_le_cap packet).
    destruct (parseShortHeader_room_bytes p packet b0 H0 HL) as (dcid & -> & _ & Hel);
      [lia|].
    eexists. split; [reflexivity|]. cbn [ShortHeader.DCID]. rewrite Hel.
    rewrite drop_app_le by (apply byte_at_lt in H0; unfold len in H0; lia).
    rewrite take_app_le; [reflexivity|].
    rewrite length_drop. unfold len in Hl. lia.
Qed.

(** The amended C7 at the two packets of the repository's test. *)
Lemma C7_ParsePacket_outcomes_witness :
  (bytes_ok test_long_packet
   /\ complete_header test_processor test_long_packet = true
   /\ header_or_bounds_panic (ParsePacket test_processor test_long_packet)
   /\ exists h,
        ParsePacket test_processor test_long_packet = Ret (OfLong (Some h), None)
        /\ elems (LongHeader.DCID h) = [1; 2; 3; 4; 5; 6; 7; 8]
        /\ elems (LongHeader.SCID h) = [0x0A; 0x0B; 0x0C; 0x0D])
  /\ (bytes_ok test_short_packet
      /\ complete_header test_processor test_short_packet = true
      /\ exists h,
           ParsePacket test_processor test_short_packet
           = Ret (OfShort (Some h), None)
           /\ elems (ShortHeader.DCID h) = [1; 2; 3; 4; 5; 6; 7; 8]).
Proof.
  assert (Hok : bytes_ok test_long_packet)
    by (apply (bool_decide_unpack _); vm_compute; exact I).
  assert (Hok' : bytes_ok test_short_packet)
    by (apply (bool_decide_unpack _); vm_compute; exact I).
  assert (Hc : complete_header test_processor test_long_packet = true)
    by reflexivity.
  assert (Hc' : complete_header test_processor test_short_packet = true)
    by reflexivity.
  split.
  - split; [exact Hok|]. split; [exact Hc|].
    destruct (C7_ParsePacket_outcomes test_processor test_long_packet)
      as (Ho & _ & Hr).
    split; [exact Ho|].
    destruct (Hr Hok Hc) as (b0 & H0 & Hlong & _).
    injection H0 as <-.
    destruct (Hlong eq_refl) as (h & d & s & Hh & H5 & H6 & _ & _ & Hde & Hse).
    injection H5 as <-. injection H6 as <-.
    exists h. split; [exact Hh|]. split; [rewrite Hde | rewrite Hse]; reflexivity.
  - split; [exact Hok'|]. split; [exact Hc'|].
    destruct (C7_ParsePacket_outcomes test_processor test_short_packet)
      as (_ & _ & Hr).
    destruct (Hr Hok' Hc') as (b0 & H0 & _ & Hshort).
    injection H0 as <-.
    destruct (Hshort eq_refl) as (h & Hh & Hel).
    exists h. split; [exact Hh|]. rewrite Hel. reflexivity.
Defined.

(** * Reading, then parsing *)

(** X17.  A datagram of at least one byte that [ReadPacket] hands over is the
    first [n] cells of the 1500-byte buffer and keeps the buffer's capacity,
    so the parser's re-slices never fail on it for want of bytes.  A
    short-form datagram parses to a header whose CID is the [L] cells of the
    buffer after byte 0, however few bytes arrived; a long-form datagram that
    reaches its source-CID length byte parses to a header whose source CID is
    the [s] cells of the buffer from offset [7 + d] on, even when those bytes
    did not arrive: the missing bytes are those [ReadFrom] left in the
    buffer. *)
Theorem X17_read_then_parse
    (PacketConn Addr world : Type)
    (ReadFrom : PacketConn -> slice -> world -> (slice * Z * option Addr * error) * world)
    (p : PacketProcessor.t)
    (b : lb.LoadBalancer PacketConn) (w w' : world)
    (c : PacketConn) (buffer : slice) (n : Z) (addr : option Addr) :
  read_contract ReadFrom ->
  lb.listener PacketConn b = Some c ->
  ReadFrom c (make_bytes 1500) w = ((buffer, n, addr, None), w') ->
  1 <= n <= 1500 ->
  bytes_ok buffer ->
  exists packet,
    ReadPacket PacketConn Addr world ReadFrom b w = (Ret (packet, addr, None), w')
    /\ len packet = n /\ cap packet = 1500
    /\ elems packet = take (Z.to_nat n) (elems buffer ++ spare buffer)
    /\ elems packet ++ spare packet = elems buffer ++ spare buffer
    /\ (short_form packet -> 0 <= PacketProcessor.DCIDLength p <= 254 ->
        exists h, ParsePacket p packet = Ret (OfShort (Some h), None)
                  /\ len (ShortHeader.DCID h) = PacketProcessor.DCIDLength p
                  /\ elems (ShortHeader.DCID h)
                     = take (Z.to_nat (PacketProcessor.DCIDLength p))
                            (drop 1 (elems buffer ++ spare buffer)))
    /\ (long_form packet ->
        forall d s,
          byte_at packet 5 = Some d -> byte_at packet (6 + d) = Some s ->
          7 + d + s <= 255 ->
          exists h, ParsePacket p packet = Ret (OfLong (Some h), None)
                    /\ len (LongHeader.SCID h) = s
                    /\ elems (LongHeader.SCID h)
                       = take (Z.to_nat s)
                              (drop (Z.to_nat (7 + d))
                                    (elems buffer ++ spare buffer))).
Proof.
  intros Hcontract Hl Hread Hn Hok.
  destruct (Hcontract _ _ _ _ _ _ _ _ Hread) as [_ Hcap].
  change (cap (make_bytes 1500)) with 1500 in Hcap.
  unfold ReadPacket. rewrite Hl, Hread.
  destruct (reslice buffer 0 n) as [packet|why] eqn:E;
    [|rewrite reslice_in in E by lia; discriminate E].
  destruct (reslice_shape _ _ _ _ E) as (Hlen & Hcp & Hel).
  pose proof (reslice_from_start _ _ _ E) as Hback.
  assert (Hokp : bytes_ok packet).
  { unfold bytes_ok. rewrite Hback. exact Hok. }
  exists packet. split; [reflexivity|]. split; [lia|]. split; [lia|].
  split.
  { rewrite Hel. replace (n - 0) with n by lia. reflexivity. }
  split; [exact Hback|]. split.
  - intros (b0 & H0 & Hbit) HL.
    rewrite (ParsePacket_eq p packet b0 H0 (byte_at_is_uint8 _ _ _ Hokp H0)), Hbit.
    destruct (parseShortHeader_room_bytes p packet b0 H0 HL)
      as (dcid & -> & Hdl & Hde); [lia|].
    eexists. split; [reflexivity|]. cbn [ShortHeader.DCID].
    split; [exact Hdl|]. rewrite Hde, Hback. reflexivity.
  - intros (b0 & H0 & Hbit) d s H5 Hs Hsum.
    rewrite (ParsePacket_eq p packet b0 H0 (byte_at_is_uint8 _ _ _ Hokp H0)), Hbit.
    pose proof (byte_at_is_uint8 _ _ _ Hokp H5) as Hd.
    pose proof (byte_at_is_uint8 _ _ _ Hokp Hs) as Hsu.
    unfold is_uint8 in Hd, Hsu.
    destruct (parseLongHeader_room_bytes p packet d s Hokp H5 Hs)
      as (h & -> & _ & _ & _ & Hls & Hse); [lia | lia |].
    exists h. split; [reflexivity|]. split; [exact Hls|].
    rewrite Hse, Hback. reflexivity.
Qed.

Lemma X17_read_then_parse_witness :
  read_contract (deliver [0x40; 0x01; 0x02; 0x03; 0x04])
  /\ lb.listener unit running_balancer = Some tt
  /\ exists packet h,
       ReadPacket unit unit unit (deliver [0x40; 0x01; 0x02; 0x03; 0x04])
         running_balancer tt = (Ret (packet, Some tt, None), tt)
       /\ len packet = 5
       /\ elems packet = [0x40; 0x01; 0x02; 0x03; 0x04]
       /\ ParsePacket test_processor packet = Ret (OfShort (Some h), None)
       /\ len (ShortHeader.DCID h) = 8
       /\ elems (ShortHeader.DCID h) = [0x01; 0x02; 0x03; 0x04; 0; 0; 0; 0].
Proof.
  pose proof (deliver_contract [0x40; 0x01; 0x02; 0x03; 0x04]) as Hc.
  assert (Hl : lb.listener unit running_balancer = Some tt) by reflexivity.
  split; [exact Hc|]. split; [exact Hl|].
  destruct (X17_read_then_parse unit unit unit
              (deliver [0x40; 0x01; 0x02; 0x03; 0x04]) test_processor
              running_balancer tt tt tt _ _ _ Hc Hl eq_refl)
    as (packet & Hp & Hlen & _ & Hel & _ & Hshort & _).
  { vm_compute. split; discriminate. }
  { apply (bool_decide_unpack _). vm_compute. exact I. }
  assert (Hel' : elems packet = [0x40; 0x01; 0x02; 0x03; 0x04])
    by (rewrite Hel; reflexivity).
  destruct Hshort as (h & Hh & Hl8 & Hde).
  { exists 0x40. unfold byte_at. rewrite Hel'. split; reflexivity. }
  { cbn. lia. }
  exists packet, h. repeat (split; [assumption|]).
  rewrite Hde. reflexivity.
Defined.

(** * A balancer as [InitLoadBalancer] makes it *)

(** X18.  [InitLoadBalancer] returns a balancer and a nil error whatever the
    address and the backends.  The balancer holds both, is stopped, has a
    free mutex, no listener and a nil [packetProcessor].  On it [Shutdown]
    returns nil and changes nothing, [ReadPacket] panics on the nil listener,
    and [Start] listens on the given address: a refusal comes back as the
    error and leaves the balancer as it was, a success stores the listener
    and sets the flag. *)
Theorem X18_fresh_balancer
    (PacketConn Addr world : Type)
    (ListenPacket : string -> string -> world -> (option PacketConn * error) * world)
    (Close : PacketConn -> world -> error * world)
    (ReadFrom : PacketConn -> slice -> world -> (slice * Z * option Addr * error) * world)
    (listenAddr : string) (backends : list string) (w : world) :
  exists b,
    lb.InitLoadBalancer PacketConn listenAddr backends = (Some b, None)
    /\ lb.listenAddr PacketConn b = listenAddr
    /\ lb.backends PacketConn b = backends
    /\ lb.listener PacketConn b = None
    /\ lb.running PacketConn b = false
    /\ lb.packetProcessor PacketConn b = None
    /\ lb.RWMutex.held (lb.mu PacketConn b) = false
    /\ lb.Shutdown PacketConn world Close b w = Some (Ret None, b, w)
    /\ ReadPacket PacketConn Addr world ReadFrom b w = (Panic NilDereference, w)
    /\ (forall l e w1,
          ListenPacket "udp"%string listenAddr w = ((l, Some e), w1) ->
          lb.Start PacketConn world ListenPacket b w = Some (Ret (Some e), b, w1))
    /\ (forall l w1,
          ListenPacket "udp"%string listenAddr w = ((l, None), w1) ->
          lb.Start PacketConn world ListenPacket b w
          = Some (Ret None,
                  lb.set_running PacketConn true (lb.set_listener PacketConn l b),
                  w1)).
Proof.
  eexists. split; [reflexivity|].
  repeat (split; [reflexivity|]). split.
  - intros l e w1 H. unfold lb.Start, lb.locked. cbn. rewrite H. reflexivity.
  - intros l w1 H. unfold lb.Start, lb.locked. cbn. rewrite H. reflexivity.
Qed.
